(** * The BestBuy connection probe ([test-bestbuy-api.py])

    A shallow embedding of the script's single function
    [test_bestbuy_connection] and of the part of the Python runtime it
    touches: JSON-decoded values, truthiness, [str()] formatting,
    [json.dumps(..., indent=n)], exceptions with [try]/[except Exception],
    [print] to a UTF-8 standard output, and the two HTTP calls, which are
    answered by an explicit [world].

    A run is a pair: the list of observable events in order (lines given to
    [print], HTTP requests sent) and the way the function completed. *)

From Stdlib Require Import ZArith String Ascii List Bool Lia.
From Stdlib Require Import DecimalString DecimalZ DecimalPos.
From Stdlib Require Import Floats.SpecFloat.
Import ListNotations.

Local Open Scope string_scope.
Local Open Scope Z_scope.

Set Warnings "-register-all".

(** ** Python values *)

(** What [Response.json()] can return, and what the script builds itself:
    [None], [bool], [int], [float], [str], [list] and [dict].  A [dict] keeps
    its items in insertion order, which is the order [.items()] and
    [json.dumps] walk them in; its keys are strings, as JSON object keys
    are, and a decoded JSON object never repeats a key. *)
Inductive value : Type :=
| VNone
| VBool (b : bool)
| VInt (z : Z)
| VFloat (f : spec_float)
| VStr (s : string)
| VList (items : list value)
| VDict (members : list (string * value)).

(** [type(v).__name__], as it appears in interpreter error messages. *)
Definition type_name (v : value) : string :=
  match v with
  | VNone => "NoneType"
  | VBool _ => "bool"
  | VInt _ => "int"
  | VFloat _ => "float"
  | VStr _ => "str"
  | VList _ => "list"
  | VDict _ => "dict"
  end.

(** [bool(v)]: [None], [False], zero, and the empty string, list and dict
    are falsy; everything else (a NaN included) is truthy. *)
Definition truthy (v : value) : bool :=
  match v with
  | VNone => false
  | VBool b => b
  | VInt z => negb (z =? 0)
  | VFloat (S754_zero _) => false
  | VFloat _ => true
  | VStr s => negb (s =? "")%string
  | VList items => match items with [] => false | _ :: _ => true end
  | VDict members => match members with [] => false | _ :: _ => true end
  end.

(** The first binding of [key], the way a dict with unique keys finds it. *)
Fixpoint dict_lookup (members : list (string * value)) (key : string)
  : option value :=
  match members with
  | [] => None
  | (k, v) :: rest => if (k =? key)%string then Some v else dict_lookup rest key
  end.

(** ** Strings *)

Definition nl : string := String (ascii_of_nat 10) EmptyString.

Fixpoint join (sep : string) (parts : list string) : string :=
  match parts with
  | [] => ""
  | [p] => p
  | p :: rest => p ++ sep ++ join sep rest
  end.

Fixpoint spaces (n : nat) : string :=
  match n with
  | O => ""
  | S n' => String " " (spaces n')
  end.

(** [str(n)] for an [int]: decimal digits, with a leading minus sign. *)
Definition str_int (n : Z) : string := NilZero.string_of_int (Z.to_int n).

(** ** What standard output can encode

    A Python [str] is a sequence of code points.  It is represented here by
    its UTF-8 bytes; a lone surrogate (U+D800..U+DFFF), which a [str] may
    hold (the JSON text ["\ud83d"] decodes to one) and which UTF-8 proper
    cannot encode, is represented by the three bytes [ED A0..BF 80..BF] that
    the [surrogatepass] error handler gives it.  [print] encodes a line for
    standard output with the strict UTF-8 codec, which rejects exactly the
    lines that hold a surrogate. *)
Definition surrogate_lead (c : ascii) : bool := Ascii.eqb c "237"%char.

Definition surrogate_next (c : ascii) : bool :=
  ((160 <=? nat_of_ascii c) && (nat_of_ascii c <=? 191))%nat.

Fixpoint encodable (line : string) : bool :=
  match line with
  | EmptyString => true
  | String c rest =>
      negb (surrogate_lead c
            && match rest with
               | String d _ => surrogate_next d
               | EmptyString => false
               end)
      && encodable rest
  end.

(** The code point U+D83D on its own, the first half of an emoji. *)
Definition lone_surrogate : string :=
  String "237"%char (String "160"%char (String "189"%char EmptyString)).

Definition is_ascii_char (c : ascii) : bool :=
  match c with
  | Ascii _ _ _ _ _ _ _ b7 => negb b7
  end.

Fixpoint is_ascii (s : string) : bool :=
  match s with
  | EmptyString => true
  | String c rest => is_ascii_char c && is_ascii rest
  end.

(** ** The runtime's leaf renderers

    Four functions of CPython that the script reaches only through
    [str()], [json.dumps] and [print], taken as an interface: the shortest
    round-trip rendering of a float, the quoting of a string by [repr],
    the JSON string-literal encoder ([ensure_ascii=True]), and the text of
    the [UnicodeEncodeError] that the output codec raises for a line it
    cannot encode.  What they return can itself be printed: floats and
    JSON literals are ASCII, and [repr] and the codec's message escape
    surrogates. *)
Class PyRuntime : Type := {
  float_repr : spec_float -> string;
  str_repr : string -> string;
  encode_basestring_ascii : string -> string;
  encode_error_str : string -> string;
  float_repr_ascii : forall f, is_ascii (float_repr f) = true;
  str_repr_encodable : forall s, encodable (str_repr s) = true;
  encode_basestring_ascii_ascii :
    forall s, is_ascii (encode_basestring_ascii s) = true;
  encode_error_str_encodable : forall s, encodable (encode_error_str s) = true
}.

Section Rendering.

Context {rt : PyRuntime}.

(** [repr(v)]. *)
Fixpoint py_repr (v : value) : string :=
  match v with
  | VNone => "None"
  | VBool true => "True"
  | VBool false => "False"
  | VInt z => str_int z
  | VFloat f => float_repr f
  | VStr s => str_repr s
  | VList items => "[" ++ join ", " (map py_repr items) ++ "]"
  | VDict members =>
      "{" ++ join ", "
               (map (fun kv => str_repr (fst kv) ++ ": " ++ py_repr (snd kv))
                    members)
          ++ "}"
  end.

(** [str(v)], which is what an f-string placeholder [{v}] inserts. *)
Definition py_str (v : value) : string :=
  match v with
  | VStr s => s
  | _ => py_repr v
  end.

(** [json.encoder]'s [floatstr]. *)
Definition floatstr (f : spec_float) : string :=
  match f with
  | S754_nan => "NaN"
  | S754_infinity false => "Infinity"
  | S754_infinity true => "-Infinity"
  | _ => float_repr f
  end.

Definition newline_indent (indent level : nat) : string :=
  nl ++ spaces (indent * level).

(** [json.dumps(v, indent=indent)] at nesting depth [level]: items one per
    line, separated by [","], keys and values by [": "]; empty containers
    stay on one line. *)
Fixpoint dumps_at (indent level : nat) (v : value) : string :=
  match v with
  | VNone => "null"
  | VBool true => "true"
  | VBool false => "false"
  | VInt z => str_int z
  | VFloat f => floatstr f
  | VStr s => encode_basestring_ascii s
  | VList [] => "[]"
  | VList items =>
      "[" ++ newline_indent indent (S level)
          ++ join ("," ++ newline_indent indent (S level))
                  (map (dumps_at indent (S level)) items)
          ++ newline_indent indent level ++ "]"
  | VDict [] => "{}"
  | VDict members =>
      "{" ++ newline_indent indent (S level)
          ++ join ("," ++ newline_indent indent (S level))
                  (map (fun kv => encode_basestring_ascii (fst kv) ++ ": "
                                    ++ dumps_at indent (S level) (snd kv))
                       members)
          ++ newline_indent indent level ++ "}"
  end.

Definition json_dumps (indent : nat) (v : value) : string :=
  dumps_at indent 0 v.

End Rendering.

(** ** Exceptions and effects *)

(** The exception classes a run can meet.  [KeyError], [TypeError] and
    [AttributeError] come from the interpreter, [UnicodeEncodeError] from
    [print], [JSONDecodeError] from [Response.json()], [RequestException]
    stands for the transport errors of [requests] (connection failure,
    timeout, ...).  [KeyboardInterrupt] and [SystemExit] derive from
    [BaseException] only. *)
Inductive exn_class : Type :=
| KeyError
| TypeError
| AttributeError
| UnicodeEncodeError
| JSONDecodeError
| RequestException
| KeyboardInterrupt
| SystemExit.

(** An exception: its class and [str(e)], what [{e}] inserts.  The
    messages of these classes are built by the interpreter and the
    libraries from fixed text, numbers and [repr]-escaped data, so they can
    be printed. *)
Record py_exn : Type := mk_exn {
  exn_class_of : exn_class;
  exn_str : string;
  exn_str_encodable : encodable exn_str = true
}.

(** [isinstance(e, Exception)]: what [except Exception] catches. *)
Definition is_Exception (e : py_exn) : bool :=
  match exn_class_of e with
  | KeyboardInterrupt | SystemExit => false
  | _ => true
  end.

(** What a run does that can be seen from outside, in order. *)
Inductive event : Type :=
| EPrint (line : string)
| EPost (url : string) (json_body : value)
| EGet (url : string) (headers : list (string * string)).

(** A computation: the events it produced, and either the exception it
    raised or its result. *)
Definition M (A : Type) : Type := (list event * (py_exn + A))%type.

Definition ret {A : Type} (a : A) : M A := ([], inr a).

Definition raise {A : Type} (e : py_exn) : M A := ([], inl e).

Definition bind {A B : Type} (c : M A) (k : A -> M B) : M B :=
  match c with
  | (tr, inl e) => (tr, inl e)
  | (tr, inr a) => let (tr', r) := k a in ((tr ++ tr')%list, r)
  end.

Declare Scope probe_scope.
Delimit Scope probe_scope with probe.
Notation "x <- c ;; k" := (bind c (fun x => k))
  (at level 61, c at next level, right associativity) : probe_scope.
Notation "c ;; k" := (bind c (fun _ => k))
  (at level 61, right associativity) : probe_scope.
Local Open Scope probe_scope.

(** [try: body  except Exception as e: handler]. *)
Definition try_except {A : Type} (body : M A) (handler : py_exn -> M A) : M A :=
  match body with
  | (tr, inl e) =>
      if is_Exception e
      then let (tr', r) := handler e in ((tr ++ tr')%list, r)
      else (tr, inl e)
  | (tr, inr a) => (tr, inr a)
  end.

(** [for x in xs: body]. *)
Fixpoint for_each {A : Type} (xs : list A) (body : A -> M unit) : M unit :=
  match xs with
  | [] => ret tt
  | x :: rest => body x ;; for_each rest body
  end.

(** ** The remote end *)

(** A [requests.Response]: its [status_code], its [text], and what
    [.json()] does: raise a [JSONDecodeError] with the given message (fixed
    text and positions, so printable), or return the decoded value. *)
Record response : Type := mk_response {
  status_code : Z;
  text : string;
  json_result : string + value;
  json_error_encodable :
    match json_result with
    | inl msg => encodable msg = true
    | inr _ => True
    end
}.

(** Everything outside the script: the reading of [int(time.time())], and
    for each request either the exception the call raises or the response
    it returns. *)
Record world : Type := mk_world {
  clock : Z;
  http_post : string -> value -> py_exn + response;
  http_get : string -> list (string * string) -> py_exn + response
}.

Definition requests_post (w : world) (url : string) (json_body : value)
  : M response :=
  ([EPost url json_body], http_post w url json_body).

Definition requests_get (w : world) (url : string)
           (headers : list (string * string)) : M response :=
  ([EGet url headers], http_get w url headers).

Definition response_json (r : response) : M value :=
  match json_result r as j
        return (match j with
                | inl msg => encodable msg = true
                | inr _ => True
                end -> M value)
  with
  | inl msg => fun printable => raise (mk_exn JSONDecodeError msg printable)
  | inr v => fun _ => ret v
  end (json_error_encodable r).

(** ** The script *)

Section Probe.

Context {rt : PyRuntime}.

(** The exception [print] raises for a line standard output cannot
    encode. *)
Definition unicode_error (line : string) : py_exn :=
  mk_exn UnicodeEncodeError (encode_error_str line)
         (encode_error_str_encodable line).

(** [print(line)]: the line reaches standard output, or, when it holds a
    lone surrogate, nothing is written and the codec's error is raised. *)
Definition print (line : string) : M unit :=
  if encodable line then ([EPrint line], inr tt)
  else raise (unicode_error line).

Definition not_subscriptable (v : value) : py_exn :=
  mk_exn TypeError ("'" ++ type_name v ++ "' object is not subscriptable")
         (match v as v0
                return encodable ("'" ++ type_name v0
                                      ++ "' object is not subscriptable") = true
          with
          | VNone => eq_refl
          | VBool _ => eq_refl
          | VInt _ => eq_refl
          | VFloat _ => eq_refl
          | VStr _ => eq_refl
          | VList _ => eq_refl
          | VDict _ => eq_refl
          end).

(** [v[key]] with a string key.  The [TypeError] texts are CPython's
    (3.11 and later for the [str] case). *)
Definition getitem (v : value) (key : string) : M value :=
  match v with
  | VDict members =>
      match dict_lookup members key with
      | Some x => ret x
      | None => raise (mk_exn KeyError (str_repr key) (str_repr_encodable key))
      end
  | VList _ =>
      raise (mk_exn TypeError
                    "list indices must be integers or slices, not str" eq_refl)
  | VStr _ =>
      raise (mk_exn TypeError
                    "string indices must be integers, not 'str'" eq_refl)
  | _ => raise (not_subscriptable v)
  end.

(** The two methods the script calls on a decoded value. *)
Inductive method : Type :=
| method_get
| method_items.

Definition method_name (m : method) : string :=
  match m with
  | method_get => "get"
  | method_items => "items"
  end.

Definition no_attribute (v : value) (m : method) : py_exn :=
  mk_exn AttributeError
         ("'" ++ type_name v ++ "' object has no attribute '"
              ++ method_name m ++ "'")
         (match v as v0, m as m0
                return encodable ("'" ++ type_name v0
                                      ++ "' object has no attribute '"
                                      ++ method_name m0 ++ "'") = true
          with
          | VNone, method_get => eq_refl
          | VNone, method_items => eq_refl
          | VBool _, method_get => eq_refl
          | VBool _, method_items => eq_refl
          | VInt _, method_get => eq_refl
          | VInt _, method_items => eq_refl
          | VFloat _, method_get => eq_refl
          | VFloat _, method_items => eq_refl
          | VStr _, method_get => eq_refl
          | VStr _, method_items => eq_refl
          | VList _, method_get => eq_refl
          | VList _, method_items => eq_refl
          | VDict _, method_get => eq_refl
          | VDict _, method_items => eq_refl
          end).

(** [v.get(key, default)]; [v.get(key)] is [dict_get v key VNone]. *)
Definition dict_get (v : value) (key : string) (default : value) : M value :=
  match v with
  | VDict members =>
      ret (match dict_lookup members key with
           | Some x => x
           | None => default
           end)
  | _ => raise (no_attribute v method_get)
  end.

(** [v.items()]. *)
Definition dict_items (v : value) : M (list (string * value)) :=
  match v with
  | VDict members => ret members
  | _ => raise (no_attribute v method_items)
  end.

(** Line 6. *)
Definition BASE_URL : string :=
  "https://ecommerce-portal-production.up.railway.app/api".

Definition register_url : string := BASE_URL ++ "/auth/register".
Definition bestbuy_url : string := BASE_URL ++ "/bestbuy/test".

(** Line 14: [f"bestbuy-test-{int(time.time())}@example.com"], with [now]
    the value of [int(time.time())]. *)
Definition test_email (now : Z) : string :=
  "bestbuy-test-" ++ str_int now ++ "@example.com".

(** Lines 13-18. *)
Definition test_user (now : Z) : value :=
  VDict [("email", VStr (test_email now));
         ("password", VStr "testpass123");
         ("firstName", VStr "BestBuy");
         ("lastName", VStr "Tester")].

(** Lines 20-30, the first [try] statement.  The result is [Some auth_token]
    when control goes on to step 2, and [None] where the source executes
    [return]. *)
Definition register_step (w : world) (user : value) : M (option value) :=
  try_except
    (register_response <- requests_post w register_url user ;;
     if status_code register_response =? 201 then
       (body <- response_json register_response ;;
        auth_token <- getitem body "token" ;;
        print "✅ Test user created successfully" ;;
        ret (Some auth_token))
     else
       (print ("❌ User creation failed: " ++ text register_response) ;;
        ret None))
    (fun e =>
       print ("❌ Registration error: " ++ exn_str e) ;;
       ret None).

(** Lines 44-49, the branch taken when [result.get("success")] is truthy. *)
Definition report_passed (result : value) : M unit :=
  print (nl ++ "✅ BestBuy Connection Test PASSED!") ;;
  platform <- dict_get result "platform" (VStr "Unknown") ;;
  print ("   Platform: " ++ py_str platform) ;;
  api_key <- dict_get result "apiKey" (VStr "Hidden") ;;
  print ("   API Key: " ++ py_str api_key) ;;
  data <- dict_get result "data" VNone ;;
  if truthy data then
    (account_data <- getitem result "data" ;;
     print ("   Account Data: " ++ json_dumps 4 account_data))
  else ret tt.

(** Lines 51-56, the branch taken otherwise. *)
Definition report_failed (result : value) : M unit :=
  message <- dict_get result "message" VNone ;;
  print (nl ++ "❌ BestBuy Connection Test FAILED: " ++ py_str message) ;;
  troubleshooting <- dict_get result "troubleshooting" VNone ;;
  if truthy troubleshooting then
    (print (nl ++ "💡 Troubleshooting suggestions:") ;;
     mapping <- getitem result "troubleshooting" ;;
     items <- dict_items mapping ;;
     for_each items
              (fun kv => print ("   - " ++ fst kv ++ ": " ++ py_str (snd kv))))
  else ret tt.

(** Lines 43-56: the [if] on [result.get("success")]. *)
Definition report_result (result : value) : M unit :=
  success <- dict_get result "success" VNone ;;
  if truthy success then report_passed result else report_failed result.

(** Line 34. *)
Definition auth_headers (auth_token : value) : list (string * string) :=
  [("Authorization", "Bearer " ++ py_str auth_token)].

(** Lines 33-59, step 2 with its [try] statement. *)
Definition bestbuy_step (w : world) (auth_token : value) : M unit :=
  print (nl ++ "2. Testing BestBuy API connection...") ;;
  let headers := auth_headers auth_token in
  try_except
    (bestbuy_response <- requests_get w bestbuy_url headers ;;
     result <- response_json bestbuy_response ;;
     print ("Status Code: " ++ str_int (status_code bestbuy_response)) ;;
     print ("Response: " ++ json_dumps 2 result) ;;
     report_result result)
    (fun e => print ("❌ BestBuy test error: " ++ exn_str e)).

(** Lines 8-59. *)
Definition test_bestbuy_connection (w : world) : M unit :=
  print ("🚀 Testing BestBuy Connection on Railway Deployment" ++ nl) ;;
  print "1. Creating test user..." ;;
  let test_user := test_user (clock w) in
  registered <- register_step w test_user ;;
  match registered with
  | None => ret tt
  | Some auth_token => bestbuy_step w auth_token
  end.

(** ** Vocabulary for the statements *)

(** What every run starts with: the banner, the step-1 heading and the
    registration request. *)
Definition step1_trace (w : world) : list event :=
  [EPrint ("🚀 Testing BestBuy Connection on Railway Deployment" ++ nl);
   EPrint "1. Creating test user...";
   EPost register_url (test_user (clock w))].

(** The run up to and including the health-check request, when the
    registration gave [auth_token]. *)
Definition step2_trace (w : world) (auth_token : value) : list event :=
  (step1_trace w
   ++ [EPrint "✅ Test user created successfully";
       EPrint (nl ++ "2. Testing BestBuy API connection...");
       EGet bestbuy_url (auth_headers auth_token)])%list.

(** The registration call returns status 201 and a JSON object whose
    [token] field is [auth_token]. *)
Definition registers (w : world) (auth_token : value) : Prop :=
  exists r members,
    http_post w register_url (test_user (clock w)) = inr r
    /\ status_code r = 201
    /\ json_result r = inr (VDict members)
    /\ dict_lookup members "token" = Some auth_token.

(** The health-check call returns the response [r]. *)
Definition answers (w : world) (auth_token : value) (r : response) : Prop :=
  http_get w bestbuy_url (auth_headers auth_token) = inr r.

(** The handler of the second [try] statement (lines 58-59). *)
Definition bestbuy_handler (e : py_exn) : M unit :=
  print ("❌ BestBuy test error: " ++ exn_str e).

(** The two lines printed for any health-check response whose body
    decodes to [result] (lines 40-41). *)
Definition response_lines (r : response) (result : value) : list event :=
  [EPrint ("Status Code: " ++ str_int (status_code r));
   EPrint ("Response: " ++ json_dumps 2 result)].

(** [members.get(key, default)] on a dict. *)
Definition field (members : list (string * value)) (key : string)
           (default : value) : value :=
  match dict_lookup members key with
  | Some x => x
  | None => default
  end.



(** The requests a trace contains, in order. *)
Definition is_request (ev : event) : bool :=
  match ev with
  | EPrint _ => false
  | _ => true
  end.

Definition http_requests (tr : list event) : list event :=
  filter is_request tr.

(** The world [w] with every health-check response's status replaced by
    [status]; bodies, exceptions and the registration are unchanged. *)
Definition with_get_status (status : Z) (w : world) : world :=
  mk_world (clock w) (http_post w)
           (fun url headers =>
              match http_get w url headers with
              | inl e => inl e
              | inr r =>
                  inr (mk_response status (text r) (json_result r)
                                   (json_error_encodable r))
              end).

(** Every exception the world's calls raise is an [Exception]. *)
Definition raises_only_Exception (w : world) : Prop :=
  (forall url body e, http_post w url body = inl e -> is_Exception e = true)
  /\ (forall url headers e, http_get w url headers = inl e -> is_Exception e = true).

(** A decoded registration body from which [body["token"]] can be read. *)
Definition has_token (body : value) : bool :=
  match body with
  | VDict members =>
      match dict_lookup members "token" with
      | Some _ => true
      | None => false
      end
  | _ => false
  end.

(** A computation that sends no request and raises nothing that
    [except Exception] lets through. *)
Definition quiet {A : Type} (c : M A) : Prop :=
  http_requests (fst c) = []
  /\ (forall e, snd c = inl e -> is_Exception e = true).

(** The lines whose text comes from the backend. *)
Definition rejected_line (r : response) : string :=
  "❌ User creation failed: " ++ text r.

Definition platform_line (members : list (string * value)) : string :=
  "   Platform: " ++ py_str (field members "platform" (VStr "Unknown")).

Definition api_key_line (members : list (string * value)) : string :=
  "   API Key: " ++ py_str (field members "apiKey" (VStr "Hidden")).

Definition failed_line (members : list (string * value)) : string :=
  nl ++ "❌ BestBuy Connection Test FAILED: "
     ++ py_str (field members "message" VNone).


(** [isinstance(v, dict)]. *)
Definition is_dict (v : value) : bool :=
  match v with
  | VDict _ => true
  | _ => false
  end.

(** How the process ends: with status 0 when the function returns, since
    the script sets no exit code of its own, and with the interpreter's
    report of an uncaught exception otherwise. *)
Inductive exit_status : Type :=
| ExitZero
| ExitUncaught (e : py_exn).

(** Lines 61-62. *)
Definition script_main (w : world) : list event * exit_status :=
  match test_bestbuy_connection w with
  | (tr, inr _) => (tr, ExitZero)
  | (tr, inl e) => (tr, ExitUncaught e)
  end.

End Probe.

(** ** Facts about strings and decimal numerals *)

Module StringFacts.

Lemma length_append (s t : string) :
  String.length (s ++ t) = (String.length s + String.length t)%nat.
Proof. induction s as [| c s IH]; simpl; [reflexivity | now rewrite IH]. Qed.

Lemma append_inv_head (p s t : string) : p ++ s = p ++ t -> s = t.
Proof.
  induction p as [| c p IH]; simpl; intros H; [exact H |].
  injection H as H. exact (IH H).
Qed.

Lemma append_inv_tail (s t tail : string) : s ++ tail = t ++ tail -> s = t.
Proof.
  revert t. induction s as [| c s IH]; intros [| d t] H; simpl in H.
  - reflexivity.
  - apply (f_equal String.length) in H. simpl in H.
    rewrite length_append in H. lia.
  - apply (f_equal String.length) in H. simpl in H.
    rewrite length_append in H. lia.
  - injection H as Hc Hs. subst d. f_equal. exact (IH t Hs).
Qed.

(** [str] is injective on integers: a numeral reads back as the integer it
    was printed from. *)
Lemma str_int_inj (m n : Z) : str_int m = str_int n -> m = n.
Proof.
  unfold str_int. intros H.
  assert (Hread : forall z, NilZero.int_of_string
                              (NilZero.string_of_int (Z.to_int z))
                            = Some (Z.to_int z)).
  { intros z. apply NilZero.isi; destruct z; simpl; try discriminate;
      intros Hnil; injection Hnil as Hnil;
      exact (Unsigned.to_uint_nonnil _ Hnil). }
  apply DecimalZ.to_int_inj.
  assert (Hsome : Some (Z.to_int m) = Some (Z.to_int n))
    by (rewrite <- !Hread, H; reflexivity).
  injection Hsome as Hsome. exact Hsome.
Qed.

(** Printability. *)
Lemma is_ascii_app (s t : string) :
  is_ascii (s ++ t) = is_ascii s && is_ascii t.
Proof.
  induction s as [| c s IH]; simpl; [reflexivity |].
  rewrite IH, andb_assoc. reflexivity.
Qed.

Lemma surrogate_lead_not_ascii (c : ascii) :
  is_ascii_char c = true -> surrogate_lead c = false.
Proof.
  destruct c as [b0 b1 b2 b3 b4 b5 b6 b7]. simpl. intros H.
  destruct b7; [discriminate H |].
  unfold surrogate_lead. simpl.
  destruct b0, b1, b2, b3, b4, b5, b6; reflexivity.
Qed.

Lemma is_ascii_encodable (s : string) : is_ascii s = true -> encodable s = true.
Proof.
  induction s as [| c s IH]; [reflexivity |].
  cbn [is_ascii encodable]. intros H.
  apply andb_true_iff in H as [Hc Hs].
  rewrite (surrogate_lead_not_ascii c Hc), (IH Hs). reflexivity.
Qed.

Lemma is_ascii_spaces (n : nat) : is_ascii (spaces n) = true.
Proof. induction n as [| n IH]; [reflexivity | exact IH]. Qed.

Lemma is_ascii_join (sep : string) (parts : list string) :
  is_ascii sep = true ->
  Forall (fun p => is_ascii p = true) parts ->
  is_ascii (join sep parts) = true.
Proof.
  intros Hsep Hparts. induction Hparts as [| p rest Hp Hrest IH];
    [reflexivity |].
  destruct rest as [| q rest]; [exact Hp |].
  change (join sep (p :: q :: rest)) with (p ++ sep ++ join sep (q :: rest)).
  rewrite !is_ascii_app, Hp, Hsep, IH. reflexivity.
Qed.

Lemma is_ascii_uint (d : Decimal.uint) :
  is_ascii (NilEmpty.string_of_uint d) = true.
Proof. induction d; simpl; assumption || reflexivity. Qed.

Lemma is_ascii_str_int (n : Z) : is_ascii (str_int n) = true.
Proof.
  unfold str_int, NilZero.string_of_int, NilZero.string_of_uint.
  destruct (Z.to_int n) as [d | d]; destruct d; simpl;
    try reflexivity; apply is_ascii_uint.
Qed.

End StringFacts.

(** ** A runtime instance and some worlds to run the model on *)

Definition dquote : string := String (ascii_of_nat 34) EmptyString.

(** A string with every byte outside ASCII replaced by a question mark. *)
Fixpoint plain (s : string) : string :=
  match s with
  | EmptyString => EmptyString
  | String c rest => String (if is_ascii_char c then c else "?"%char) (plain rest)
  end.

Lemma is_ascii_plain (s : string) : is_ascii (plain s) = true.
Proof.
  induction s as [| c s IH]; [reflexivity |]. simpl.
  rewrite IH. destruct (is_ascii_char c) eqn:Hc; [rewrite Hc |]; reflexivity.
Qed.

Definition plain_float_repr (f : spec_float) : string :=
  match f with
  | S754_zero false => "0.0"
  | S754_zero true => "-0.0"
  | S754_infinity false => "inf"
  | S754_infinity true => "-inf"
  | S754_nan => "nan"
  | S754_finite _ _ _ => "<float>"
  end.

Lemma plain_float_repr_ascii (f : spec_float) :
  is_ascii (plain_float_repr f) = true.
Proof. destruct f as [[] | [] | | s m e]; reflexivity. Qed.

Lemma plain_quoted_ascii (q s : string) :
  is_ascii q = true -> is_ascii (q ++ plain s ++ q) = true.
Proof.
  intros Hq. rewrite !StringFacts.is_ascii_app, Hq, is_ascii_plain.
  reflexivity.
Qed.

(** Renderers that agree with CPython on strings of printable ASCII
    characters other than quotes and backslash, and on zeros and non-finite
    floats.  A finite non-zero float and a byte outside ASCII get a
    placeholder, not CPython's digits and escapes, and the codec's message
    leaves out the character and position CPython names; the runs below
    use no such float or string in a rendered place. *)
Definition plain_runtime : PyRuntime := {|
  float_repr := plain_float_repr;
  str_repr s := "'" ++ plain s ++ "'";
  encode_basestring_ascii s := dquote ++ plain s ++ dquote;
  encode_error_str _ := "'utf-8' codec can't encode character: surrogates not allowed";
  float_repr_ascii := plain_float_repr_ascii;
  str_repr_encodable s :=
    StringFacts.is_ascii_encodable _ (plain_quoted_ascii "'" s eq_refl);
  encode_basestring_ascii_ascii s := plain_quoted_ascii dquote s eq_refl;
  encode_error_str_encodable _ := eq_refl
|}.

Definition ok_response (status : Z) (body : value) : response :=
  mk_response status "" (inr body) I.

(** A backend that answers the registration with [reg] and the health
    check with [chk], whatever the request. *)
Definition fixed_world (now : Z) (reg chk : py_exn + response) : world :=
  mk_world now (fun _ _ => reg) (fun _ _ => chk).

Definition token_abc : py_exn + response :=
  inr (ok_response 201 (VDict [("token", VStr "abc")])).

Definition timeout_error : py_exn :=
  mk_exn RequestException "Read timed out." eq_refl.

(** Health-check bodies: a success report, a failure report with a
    troubleshooting mapping, a success report whose [data] is an empty
    object, and a body without a [success] field. *)
Definition passed_members : list (string * value) :=
  [("success", VBool true); ("platform", VStr "BestBuy");
   ("apiKey", VStr "hidden"); ("data", VDict [("x", VInt 1)])].


Definition empty_data_members : list (string * value) :=
  [("success", VBool true); ("platform", VStr "BestBuy");
   ("apiKey", VStr "hidden"); ("data", VDict [])].

Definition no_success_members : list (string * value) :=
  [("error", VStr "Unauthorized")].

(** A backend that registers the user with token [abc] and answers the
    health check with [status] and the JSON object [members]. *)
Definition answering_world (status : Z) (members : list (string * value))
  : world :=
  fixed_world 1700000000 token_abc (inr (ok_response status (VDict members))).

(** Backends that fail: the registration is refused with status 400, is
    accepted with a body that has no [token], or one of the two calls
    times out. *)
Definition refused : response :=
  mk_response 400 "email already registered" (inl "Expecting value") eq_refl.

Definition refusing_world : world :=
  fixed_world 1700000000 (inr refused) token_abc.

Definition tokenless : response :=
  ok_response 201 (VDict [("user", VStr "u1")]).

Definition tokenless_world : world :=
  fixed_world 1700000000 (inr tokenless) token_abc.

Definition post_timeout_world : world :=
  fixed_world 1700000000 (inl timeout_error) (inl timeout_error).

Definition get_timeout_world : world :=
  fixed_world 1700000000 token_abc (inl timeout_error).

(** The user pressing Ctrl-C while a call blocks. *)
Definition interrupt : py_exn := mk_exn KeyboardInterrupt "" eq_refl.

(** A gateway page instead of JSON, with the decoder's complaint. *)
Definition bad_gateway : response :=
  mk_response 502 "<html>Bad Gateway</html>"
              (inl "Expecting value: line 1 column 1 (char 0)") eq_refl.

(** Failure reports whose [troubleshooting] is a string, and an empty
    mapping; a report whose [success] is the non-empty string [false]. *)
Definition string_hint_members : list (string * value) :=
  [("success", VBool false); ("troubleshooting", VStr "restart")].

Definition empty_hint_members : list (string * value) :=
  [("success", VBool false); ("message", VStr "bad key");
   ("troubleshooting", VDict [])].

Definition quoted_false_members : list (string * value) :=
  [("success", VStr "false")].



Definition surrogate_platform_members : list (string * value) :=
  [("success", VBool true); ("platform", VStr lone_surrogate)].

Definition surrogate_only_message_members : list (string * value) :=
  [("message", VStr lone_surrogate)].


(** ** Symbolic execution of the two steps *)

Section ProbeFacts.

Context {rt : PyRuntime}.

Lemma bind_ret_l {A B : Type} (a : A) (k : A -> M B) :
  bind (ret a) k = k a.
Proof. unfold bind, ret. destruct (k a) as [tr r]. reflexivity. Qed.

Lemma bind_ok {A B : Type} (tr : list event) (a : A) (k : A -> M B) :
  bind (tr, inr a) k = ((tr ++ fst (k a))%list, snd (k a)).
Proof. unfold bind. destruct (k a) as [tr' r]. reflexivity. Qed.

Lemma bind_raise {A B : Type} (e : py_exn) (k : A -> M B) :
  bind (raise e) k = raise e.
Proof. reflexivity. Qed.

Lemma try_except_prefix {A : Type} (tr : list event) (c : M A)
      (handler : py_exn -> M A) :
  try_except ((tr ++ fst c)%list, snd c) handler =
    ((tr ++ fst (try_except c handler))%list, snd (try_except c handler)).
Proof.
  destruct c as [tr' [e | a]]; unfold try_except; cbn [fst snd].
  - destruct (is_Exception e); [| reflexivity].
    destruct (handler e) as [tr'' r]. cbn [fst snd].
    rewrite app_assoc. reflexivity.
  - reflexivity.
Qed.

Lemma try_except_cons {A : Type} (ev : event) (c : M A)
      (handler : py_exn -> M A) :
  try_except (ev :: fst c, snd c) handler =
    (ev :: fst (try_except c handler), snd (try_except c handler)).
Proof. exact (try_except_prefix [ev] c handler). Qed.

Lemma bind_fail {A B : Type} (tr : list event) (e : py_exn) (k : A -> M B) :
  bind (tr, inl e) k = (tr, inl e).
Proof. reflexivity. Qed.

Lemma try_except_fail {A : Type} (tr : list event) (e : py_exn)
      (handler : py_exn -> M A) :
  try_except (tr, inl e) handler =
    if is_Exception e
    then ((tr ++ fst (handler e))%list, snd (handler e))
    else (tr, inl e).
Proof.
  unfold try_except.
  destruct (is_Exception e); [destruct (handler e) |]; reflexivity.
Qed.

Lemma try_except_raise {A : Type} (e : py_exn) (handler : py_exn -> M A) :
  try_except (raise e) handler = if is_Exception e then handler e else raise e.
Proof.
  unfold try_except, raise.
  destruct (is_Exception e); [destruct (handler e) |]; reflexivity.
Qed.

(** [print] on a line that can, and on one that cannot, be encoded. *)
Lemma print_ok (line : string) :
  encodable line = true -> print line = ([EPrint line], inr tt).
Proof. intros H. unfold print. rewrite H. reflexivity. Qed.

Lemma print_fails (line : string) :
  encodable line = false -> print line = raise (unicode_error line).
Proof. intros H. unfold print. rewrite H. reflexivity. Qed.

Lemma bind_print {B : Type} (line : string) (k : unit -> M B) :
  encodable line = true ->
  bind (print line) k = (EPrint line :: fst (k tt), snd (k tt)).
Proof. intros H. rewrite (print_ok line H). exact (bind_ok _ tt k). Qed.

Lemma bind_print_fails {B : Type} (line : string) (k : unit -> M B) :
  encodable line = false ->
  bind (print line) k = raise (unicode_error line).
Proof. intros H. rewrite (print_fails line H). reflexivity. Qed.

Lemma is_ascii_newline_indent (indent level : nat) :
  is_ascii (newline_indent indent level) = true.
Proof.
  unfold newline_indent.
  rewrite StringFacts.is_ascii_app, StringFacts.is_ascii_spaces.
  reflexivity.
Qed.

(** What [json.dumps] returns is ASCII, whatever the value. *)
Lemma dumps_at_ascii (indent : nat) (v : value) :
  forall level, is_ascii (dumps_at indent level v) = true.
Proof.
  revert v.
  fix IH 1. intros v level.
  destruct v as [| b | z | f | s | items | members].
  - reflexivity.
  - destruct b; reflexivity.
  - apply StringFacts.is_ascii_str_int.
  - destruct f as [sg | sg | | sg m e]; cbn [dumps_at floatstr].
    + apply float_repr_ascii.
    + destruct sg; reflexivity.
    + reflexivity.
    + apply float_repr_ascii.
  - apply encode_basestring_ascii_ascii.
  - destruct items as [| x xs]; [reflexivity |].
    cbn [dumps_at].
    rewrite !StringFacts.is_ascii_app, !is_ascii_newline_indent.
    rewrite StringFacts.is_ascii_join; [reflexivity | |].
    + rewrite StringFacts.is_ascii_app, is_ascii_newline_indent.
      reflexivity.
    + generalize (x :: xs). intros l.
      induction l as [| y ys IHl]; constructor; [apply IH | exact IHl].
  - destruct members as [| x xs]; [reflexivity |].
    cbn [dumps_at].
    rewrite !StringFacts.is_ascii_app, !is_ascii_newline_indent.
    rewrite StringFacts.is_ascii_join; [reflexivity | |].
    + rewrite StringFacts.is_ascii_app, is_ascii_newline_indent.
      reflexivity.
    + generalize (x :: xs). intros l.
      induction l as [| y ys IHl]; constructor; [| exact IHl].
      rewrite !StringFacts.is_ascii_app, encode_basestring_ascii_ascii.
      rewrite IH. reflexivity.
Qed.

Lemma json_dumps_encodable (indent : nat) (v : value) :
  encodable (json_dumps indent v) = true.
Proof. apply StringFacts.is_ascii_encodable, dumps_at_ascii. Qed.

Lemma status_line_encodable (n : Z) :
  encodable ("Status Code: " ++ str_int n) = true.
Proof.
  change (encodable (str_int n) = true).
  apply StringFacts.is_ascii_encodable, StringFacts.is_ascii_str_int.
Qed.

Lemma response_line_encodable (indent : nat) (v : value) :
  encodable ("Response: " ++ json_dumps indent v) = true.
Proof. exact (json_dumps_encodable indent v). Qed.

Lemma account_data_line_encodable (indent : nat) (v : value) :
  encodable ("   Account Data: " ++ json_dumps indent v) = true.
Proof. exact (json_dumps_encodable indent v). Qed.

Lemma registration_error_encodable (e : py_exn) :
  encodable ("❌ Registration error: " ++ exn_str e) = true.
Proof. exact (exn_str_encodable e). Qed.

Lemma bestbuy_error_encodable (e : py_exn) :
  encodable ("❌ BestBuy test error: " ++ exn_str e) = true.
Proof. exact (exn_str_encodable e). Qed.

(** [Response.json()] on the two kinds of body. *)
Lemma json_result_cases (r : response) :
  (exists msg, json_result r = inl msg) \/ (exists v, json_result r = inr v).
Proof. destruct (json_result r) as [msg | v]; eauto. Qed.

Lemma response_json_value (r : response) (v : value) :
  json_result r = inr v -> response_json r = ret v.
Proof.
  intros H. unfold response_json.
  generalize (json_error_encodable r). rewrite H. reflexivity.
Qed.

Lemma response_json_error (r : response) (msg : string) :
  json_result r = inl msg ->
  exists e,
    response_json r = raise e /\ exn_str e = msg /\ is_Exception e = true.
Proof.
  intros H. unfold response_json.
  generalize (json_error_encodable r). rewrite H. intros printable.
  eexists. repeat split.
Qed.

(** [body["token"]] either yields the field or raises a [KeyError] or
    [TypeError], without any event. *)
Lemma getitem_cases (body : value) (key : string) :
  (exists x, getitem body key = ([], inr x))
  \/ (exists e, getitem body key = ([], inl e) /\ is_Exception e = true).
Proof.
  destruct body as [| b | z | f | s | items | members]; simpl;
    try (right; eexists; split; reflexivity).
  destruct (dict_lookup members key) as [x |].
  - left. exists x. reflexivity.
  - right. eexists; split; reflexivity.
Qed.

Lemma getitem_has_token (body : value) :
  has_token body = false ->
  exists e, getitem body "token" = ([], inl e) /\ is_Exception e = true.
Proof.
  intros Hno.
  destruct body as [| b | z | f | s | items | members]; simpl in *;
    try (eexists; split; reflexivity).
  destruct (dict_lookup members "token"); [discriminate |].
  eexists; split; reflexivity.
Qed.

Lemma getitem_ok_inv (body : value) (key : string) (tr : list event)
      (x : value) :
  getitem body key = (tr, inr x) ->
  exists members, body = VDict members /\ dict_lookup members key = Some x.
Proof.
  destruct body as [| b | z | f | s | items | members]; simpl;
    try discriminate.
  destruct (dict_lookup members key) as [y |] eqn:Hlookup; [| discriminate].
  intros H. injection H as _ Hx. subst y.
  exists members. split; [reflexivity | exact Hlookup].
Qed.

(** The registration handler (lines 28-30) always prints its line. *)
Lemma registration_handler_run (e : py_exn) :
  (print ("❌ Registration error: " ++ exn_str e) ;; ret (@None value))%probe
  = ([EPrint ("❌ Registration error: " ++ exn_str e)], inr None).
Proof.
  rewrite bind_print by apply registration_error_encodable. reflexivity.
Qed.

Lemma bestbuy_handler_run (e : py_exn) :
  bestbuy_handler e = ([EPrint ("❌ BestBuy test error: " ++ exn_str e)], inr tt).
Proof. apply print_ok, bestbuy_error_encodable. Qed.

(** Step 1, case by case on what the backend does. *)
Lemma register_step_raises (w : world) (user : value) (e : py_exn) :
  http_post w register_url user = inl e ->
  register_step w user =
    if is_Exception e
    then ([EPost register_url user;
           EPrint ("❌ Registration error: " ++ exn_str e)], inr None)
    else ([EPost register_url user], inl e).
Proof.
  intros Hpost. unfold register_step, requests_post.
  rewrite Hpost, bind_fail, try_except_fail.
  rewrite registration_handler_run.
  destruct (is_Exception e); reflexivity.
Qed.

(** A refusal prints the response text; when the text cannot be encoded,
    the [print] of line 26 raises inside the [try] and the handler prints
    the codec's message instead. *)
Lemma register_step_rejected (w : world) (user : value) (r : response) :
  http_post w register_url user = inr r ->
  status_code r <> 201 ->
  register_step w user =
    ([EPost register_url user;
      EPrint (if encodable (rejected_line r)
              then rejected_line r
              else "❌ Registration error: "
                   ++ encode_error_str (rejected_line r))],
     inr None).
Proof.
  intros Hpost Hstatus. unfold register_step, requests_post.
  rewrite Hpost, bind_ok.
  destruct (Z.eqb_spec (status_code r) 201) as [Heq | _]; [contradiction |].
  fold (rejected_line r).
  destruct (encodable (rejected_line r)) eqn:Henc.
  - rewrite bind_print by exact Henc. reflexivity.
  - rewrite bind_print_fails by exact Henc.
    rewrite try_except_prefix, try_except_raise.
    change (is_Exception (unicode_error (rejected_line r))) with true.
    cbv iota. rewrite registration_handler_run. reflexivity.
Qed.

Lemma register_step_undecodable (w : world) (user : value) (r : response)
      (msg : string) :
  http_post w register_url user = inr r ->
  status_code r = 201 ->
  json_result r = inl msg ->
  register_step w user =
    ([EPost register_url user;
      EPrint ("❌ Registration error: " ++ msg)], inr None).
Proof.
  intros Hpost Hstatus Hjson.
  destruct (response_json_error r msg Hjson) as (e & Hraise & Hmsg & Hexc).
  unfold register_step, requests_post.
  rewrite Hpost, bind_ok, Hstatus. cbn [Z.eqb Pos.eqb].
  rewrite Hraise, bind_raise.
  rewrite try_except_prefix, try_except_raise.
  rewrite Hexc, registration_handler_run, Hmsg. reflexivity.
Qed.

Lemma register_step_no_token (w : world) (user : value) (r : response)
      (body : value) (e : py_exn) :
  http_post w register_url user = inr r ->
  status_code r = 201 ->
  json_result r = inr body ->
  getitem body "token" = ([], inl e) ->
  is_Exception e = true ->
  register_step w user =
    ([EPost register_url user;
      EPrint ("❌ Registration error: " ++ exn_str e)], inr None).
Proof.
  intros Hpost Hstatus Hjson Hget Hexc.
  unfold register_step, requests_post.
  rewrite Hpost, bind_ok, Hstatus. cbn [Z.eqb Pos.eqb].
  rewrite (response_json_value r body Hjson), bind_ret_l, Hget.
  change ([], inl e) with (@raise value e). rewrite bind_raise.
  rewrite try_except_prefix, try_except_raise.
  rewrite Hexc, registration_handler_run. reflexivity.
Qed.

Lemma register_step_token (w : world) (user : value) (r : response)
      (body auth_token : value) :
  http_post w register_url user = inr r ->
  status_code r = 201 ->
  json_result r = inr body ->
  getitem body "token" = ([], inr auth_token) ->
  register_step w user =
    ([EPost register_url user;
      EPrint "✅ Test user created successfully"], inr (Some auth_token)).
Proof.
  intros Hpost Hstatus Hjson Hget.
  unfold register_step, requests_post.
  rewrite Hpost, bind_ok, Hstatus. cbn [Z.eqb Pos.eqb].
  rewrite (response_json_value r body Hjson), bind_ret_l, Hget.
  reflexivity.
Qed.

(** The whole run in terms of step 1. *)
Lemma run_unfold (w : world) :
  test_bestbuy_connection w =
    let (tr1, r1) := register_step w (test_user (clock w)) in
    match r1 with
    | inl e => (firstn 2 (step1_trace w) ++ tr1, inl e)%list
    | inr None => (firstn 2 (step1_trace w) ++ tr1, inr tt)%list
    | inr (Some auth_token) =>
        let (tr2, r2) := bestbuy_step w auth_token in
        (firstn 2 (step1_trace w) ++ tr1 ++ tr2, r2)%list
    end.
Proof.
  unfold test_bestbuy_connection.
  rewrite !bind_print by reflexivity.
  destruct (register_step w (test_user (clock w))) as [tr1 [e | [tok |]]];
    unfold bind; simpl.
  - reflexivity.
  - destruct (bestbuy_step w tok) as [tr2 r2]. reflexivity.
  - rewrite app_nil_r. reflexivity.
Qed.

Lemma run_registers (w : world) (auth_token : value) :
  registers w auth_token ->
  test_bestbuy_connection w =
    ((step1_trace w ++ [EPrint "✅ Test user created successfully"]
      ++ fst (bestbuy_step w auth_token))%list,
     snd (bestbuy_step w auth_token)).
Proof.
  intros (r & members & Hpost & Hstatus & Hjson & Htoken).
  rewrite run_unfold.
  rewrite (register_step_token w _ r (VDict members) auth_token Hpost Hstatus Hjson).
  - destruct (bestbuy_step w auth_token) as [tr2 r2]. reflexivity.
  - simpl. rewrite Htoken. reflexivity.
Qed.

(** Step 2, case by case. *)
Lemma bestbuy_step_raises (w : world) (auth_token : value) (e : py_exn) :
  http_get w bestbuy_url (auth_headers auth_token) = inl e ->
  bestbuy_step w auth_token =
    if is_Exception e
    then ([EPrint (nl ++ "2. Testing BestBuy API connection...");
           EGet bestbuy_url (auth_headers auth_token);
           EPrint ("❌ BestBuy test error: " ++ exn_str e)], inr tt)
    else ([EPrint (nl ++ "2. Testing BestBuy API connection...");
           EGet bestbuy_url (auth_headers auth_token)], inl e).
Proof.
  intros Hget. unfold bestbuy_step. rewrite bind_print by reflexivity.
  unfold requests_get. rewrite Hget, bind_fail, try_except_fail.
  fold (bestbuy_handler e). rewrite bestbuy_handler_run.
  destruct (is_Exception e); reflexivity.
Qed.

Lemma bestbuy_step_undecodable (w : world) (auth_token : value)
      (r : response) (msg : string) :
  answers w auth_token r ->
  json_result r = inl msg ->
  bestbuy_step w auth_token =
    ([EPrint (nl ++ "2. Testing BestBuy API connection...");
      EGet bestbuy_url (auth_headers auth_token);
      EPrint ("❌ BestBuy test error: " ++ msg)], inr tt).
Proof.
  intros Hget Hjson.
  destruct (response_json_error r msg Hjson) as (e & Hraise & Hmsg & Hexc).
  unfold bestbuy_step. rewrite bind_print by reflexivity.
  unfold requests_get. rewrite Hget, bind_ok, Hraise, bind_raise.
  rewrite try_except_prefix, try_except_raise, Hexc.
  fold (bestbuy_handler e). rewrite bestbuy_handler_run, Hmsg.
  reflexivity.
Qed.

Lemma bestbuy_step_answered (w : world) (auth_token : value)
      (r : response) (result : value) :
  answers w auth_token r ->
  json_result r = inr result ->
  bestbuy_step w auth_token =
    ((EPrint (nl ++ "2. Testing BestBuy API connection...")
      :: EGet bestbuy_url (auth_headers auth_token)
      :: response_lines r result
      ++ fst (try_except (report_result result) bestbuy_handler))%list,
     snd (try_except (report_result result) bestbuy_handler)).
Proof.
  intros Hget Hjson. unfold bestbuy_step. rewrite bind_print by reflexivity.
  unfold requests_get. rewrite Hget, bind_ok, try_except_prefix.
  rewrite (response_json_value r result Hjson), bind_ret_l.
  rewrite (print_ok _ (status_line_encodable (status_code r))).
  rewrite bind_ok, try_except_prefix.
  rewrite (print_ok _ (response_line_encodable 2 result)).
  rewrite bind_ok, try_except_prefix.
  reflexivity.
Qed.

(** The run of a world that registers and is answered with a decodable
    body. *)
Lemma run_answered (w : world) (auth_token : value) (r : response)
      (result : value) :
  registers w auth_token ->
  answers w auth_token r ->
  json_result r = inr result ->
  test_bestbuy_connection w =
    ((step2_trace w auth_token ++ response_lines r result
      ++ fst (try_except (report_result result) bestbuy_handler))%list,
     snd (try_except (report_result result) bestbuy_handler)).
Proof.
  intros Hreg Hget Hjson.
  rewrite (run_registers w auth_token Hreg).
  rewrite (bestbuy_step_answered w auth_token r result Hget Hjson).
  reflexivity.
Qed.

(** ** Quiet computations *)

Lemma quiet_ret {A : Type} (a : A) : quiet (ret a).
Proof. split; [reflexivity | discriminate]. Qed.

Lemma quiet_raise {A : Type} (e : py_exn) :
  is_Exception e = true -> quiet (@raise A e).
Proof.
  intros Hexc. split; [reflexivity |].
  intros e' H. injection H as H. subst e'. exact Hexc.
Qed.

Lemma quiet_print (line : string) : quiet (print line).
Proof.
  unfold print. destruct (encodable line).
  - split; [reflexivity | discriminate].
  - apply quiet_raise. reflexivity.
Qed.

Lemma quiet_bind {A B : Type} (c : M A) (k : A -> M B) :
  quiet c -> (forall a, quiet (k a)) -> quiet (bind c k).
Proof.
  intros [Hreq Hexc] Hk. destruct c as [tr [e | a]]; cbn [fst snd] in *.
  - rewrite bind_fail. split; [exact Hreq |].
    cbn [snd]. intros e' H. injection H as H. subst e'.
    exact (Hexc e eq_refl).
  - rewrite bind_ok. destruct (Hk a) as [Hreq' Hexc'].
    split; cbn [fst snd]; [| exact Hexc'].
    unfold http_requests in *. rewrite filter_app, Hreq, Hreq'.
    reflexivity.
Qed.

Lemma quiet_getitem (v : value) (key : string) : quiet (getitem v key).
Proof.
  destruct (getitem_cases v key) as [(x & H) | (e & H & Hexc)]; rewrite H.
  - apply quiet_ret.
  - apply quiet_raise, Hexc.
Qed.

Lemma quiet_dict_get (v : value) (key : string) (default : value) :
  quiet (dict_get v key default).
Proof.
  destruct v; try (apply quiet_raise; reflexivity). apply quiet_ret.
Qed.

Lemma quiet_dict_items (v : value) : quiet (dict_items v).
Proof.
  destruct v; try (apply quiet_raise; reflexivity). apply quiet_ret.
Qed.

Lemma quiet_for_each {A : Type} (xs : list A) (body : A -> M unit) :
  (forall x, quiet (body x)) -> quiet (for_each xs body).
Proof.
  intros Hbody. induction xs as [| x rest IH]; [apply quiet_ret |].
  cbn [for_each]. apply quiet_bind; [apply Hbody | intros _; exact IH].
Qed.

Ltac quiet_steps :=
  repeat first
    [ apply quiet_print | apply quiet_ret | apply quiet_dict_get
    | apply quiet_getitem | apply quiet_dict_items
    | apply quiet_for_each; intros ?
    | apply quiet_bind; [| intros ?]
    | match goal with
      | |- quiet (if ?c then _ else _) => destruct c
      end ].

Lemma quiet_report_result (result : value) : quiet (report_result result).
Proof. unfold report_result, report_passed, report_failed. quiet_steps. Qed.

(** Whatever a quiet computation does, the second handler turns it into a
    normal return with prints only. *)
Lemma handled_quiet (c : M unit) :
  quiet c ->
  snd (try_except c bestbuy_handler) = inr tt
  /\ http_requests (fst (try_except c bestbuy_handler)) = [].
Proof.
  intros [Hreq Hexc]. destruct c as [tr [e | []]]; cbn [fst snd] in *.
  - unfold try_except. rewrite (Hexc e eq_refl), bestbuy_handler_run.
    split; [reflexivity |].
    unfold http_requests in *. cbn [fst]. rewrite filter_app, Hreq.
    reflexivity.
  - split; [reflexivity | exact Hreq].
Qed.

(** Nothing the reporting code raises escapes [except Exception]. *)
Lemma report_result_handled (result : value) :
  snd (try_except (report_result result) bestbuy_handler) = inr tt.
Proof. exact (proj1 (handled_quiet _ (quiet_report_result result))). Qed.

(** The reporting code and its handler send no request. *)
Lemma report_result_no_request (result : value) :
  http_requests (fst (try_except (report_result result) bestbuy_handler)) = [].
Proof. exact (proj2 (handled_quiet _ (quiet_report_result result))). Qed.

(** ** The two reporting branches, line by line *)

Lemma report_result_dict (members : list (string * value)) :
  report_result (VDict members) =
    if truthy (field members "success" VNone)
    then report_passed (VDict members)
    else report_failed (VDict members).
Proof. unfold report_result, dict_get. rewrite bind_ret_l. reflexivity. Qed.

Lemma report_passed_dict (members : list (string * value)) :
  encodable (platform_line members) = true ->
  encodable (api_key_line members) = true ->
  report_passed (VDict members) =
    ((EPrint (nl ++ "✅ BestBuy Connection Test PASSED!")
      :: EPrint (platform_line members)
      :: EPrint (api_key_line members)
      :: (if truthy (field members "data" VNone)
          then [EPrint ("   Account Data: "
                        ++ json_dumps 4 (field members "data" VNone))]
          else []))%list,
     inr tt).
Proof.
  intros Hplatform Hkey. unfold report_passed, dict_get.
  rewrite bind_print by reflexivity. rewrite bind_ret_l.
  fold (field members "platform" (VStr "Unknown")). fold (platform_line members).
  rewrite bind_print by exact Hplatform. rewrite bind_ret_l.
  fold (field members "apiKey" (VStr "Hidden")). fold (api_key_line members).
  rewrite bind_print by exact Hkey. rewrite bind_ret_l.
  unfold field, getitem.
  destruct (dict_lookup members "data") as [d |]; [| reflexivity].
  destruct (truthy d); [| reflexivity].
  rewrite bind_ret_l, (print_ok _ (account_data_line_encodable 4 d)).
  reflexivity.
Qed.

(** A platform value that cannot be printed stops the success report after
    its first line. *)
Lemma report_passed_unprintable_platform (members : list (string * value)) :
  encodable (platform_line members) = false ->
  report_passed (VDict members) =
    ([EPrint (nl ++ "✅ BestBuy Connection Test PASSED!")],
     inl (unicode_error (platform_line members))).
Proof.
  intros Hplatform. unfold report_passed, dict_get.
  rewrite bind_print by reflexivity. rewrite bind_ret_l.
  fold (field members "platform" (VStr "Unknown")). fold (platform_line members).
  rewrite bind_print_fails by exact Hplatform. reflexivity.
Qed.


Lemma report_failed_start (members : list (string * value)) :
  report_failed (VDict members) =
    (print (failed_line members) ;;
     if truthy (field members "troubleshooting" VNone) then
       (print (nl ++ "💡 Troubleshooting suggestions:") ;;
        items <- dict_items (field members "troubleshooting" VNone) ;;
        for_each items
                 (fun kv => print ("   - " ++ fst kv ++ ": " ++ py_str (snd kv))))
     else ret tt)%probe.
Proof.
  unfold report_failed, dict_get. rewrite bind_ret_l.
  fold (field members "message" VNone). fold (failed_line members).
  destruct (encodable (failed_line members)) eqn:Hfailed.
  - rewrite !(bind_print (failed_line members)) by exact Hfailed.
    rewrite bind_ret_l. unfold field, getitem.
    destruct (dict_lookup members "troubleshooting") as [t |]; [| reflexivity].
    destruct (truthy t); [| reflexivity].
    rewrite !(bind_print (nl ++ "💡 Troubleshooting suggestions:")) by reflexivity.
    rewrite bind_ret_l. reflexivity.
  - rewrite !bind_print_fails by exact Hfailed. reflexivity.
Qed.

Lemma report_failed_unprintable (members : list (string * value)) :
  encodable (failed_line members) = false ->
  report_failed (VDict members) = raise (unicode_error (failed_line members)).
Proof.
  intros Hfailed. rewrite report_failed_start.
  rewrite bind_print_fails by exact Hfailed. reflexivity.
Qed.

Lemma report_failed_skipped (members : list (string * value)) :
  encodable (failed_line members) = true ->
  truthy (field members "troubleshooting" VNone) = false ->
  report_failed (VDict members) = ([EPrint (failed_line members)], inr tt).
Proof.
  intros Hfailed Hskip. rewrite report_failed_start.
  rewrite bind_print by exact Hfailed. rewrite Hskip. reflexivity.
Qed.


Lemma report_failed_not_mapping (members : list (string * value))
      (hint : value) :
  encodable (failed_line members) = true ->
  field members "troubleshooting" VNone = hint ->
  truthy hint = true ->
  is_dict hint = false ->
  report_failed (VDict members) =
    ([EPrint (failed_line members);
      EPrint (nl ++ "💡 Troubleshooting suggestions:")],
     inl (no_attribute hint method_items)).
Proof.
  intros Hfailed Hfield Htruthy Hnot. rewrite report_failed_start.
  rewrite bind_print by exact Hfailed. rewrite Hfield, Htruthy.
  rewrite bind_print by reflexivity.
  destruct hint; try discriminate Hnot; reflexivity.
Qed.

(** Step 2 sends exactly one request, the health check, right after its
    heading. *)
Lemma bestbuy_step_requests (w : world) (auth_token : value) :
  exists rest,
    fst (bestbuy_step w auth_token) =
      (EPrint (nl ++ "2. Testing BestBuy API connection...")
       :: EGet bestbuy_url (auth_headers auth_token) :: rest)
    /\ http_requests rest = [].
Proof.
  destruct (http_get w bestbuy_url (auth_headers auth_token)) as [e | r] eqn:Hget.
  - rewrite (bestbuy_step_raises w auth_token e Hget).
    destruct (is_Exception e); eexists; split; reflexivity.
  - destruct (json_result_cases r) as [(msg & Hjson) | (result & Hjson)].
    + rewrite (bestbuy_step_undecodable w auth_token r msg Hget Hjson).
      eexists; split; reflexivity.
    + rewrite (bestbuy_step_answered w auth_token r result Hget Hjson).
      eexists; split; [reflexivity |].
      unfold http_requests, response_lines. cbn [app filter is_request].
      exact (report_result_no_request result).
Qed.

(** Step 2 returns whenever the health-check call raises nothing that
    [except Exception] lets through. *)
Lemma bestbuy_step_returns (w : world) (auth_token : value) :
  (forall e, http_get w bestbuy_url (auth_headers auth_token) = inl e ->
             is_Exception e = true) ->
  snd (bestbuy_step w auth_token) = inr tt.
Proof.
  intros Hexc.
  destruct (http_get w bestbuy_url (auth_headers auth_token)) as [e | r] eqn:Hget.
  - rewrite (bestbuy_step_raises w auth_token e Hget), (Hexc e eq_refl).
    reflexivity.
  - destruct (json_result_cases r) as [(msg & Hjson) | (result & Hjson)].
    + rewrite (bestbuy_step_undecodable w auth_token r msg Hget Hjson).
      reflexivity.
    + rewrite (bestbuy_step_answered w auth_token r result Hget Hjson).
      exact (report_result_handled result).
Qed.

(** Step 1 ends in one of three ways: a token was read, a line was printed
    and the function returns, or the call raised past the handler. *)
Lemma register_step_cases (w : world) :
  (exists auth_token,
      registers w auth_token
      /\ register_step w (test_user (clock w)) =
           ([EPost register_url (test_user (clock w));
             EPrint "✅ Test user created successfully"],
            inr (Some auth_token)))
  \/ (exists line,
         register_step w (test_user (clock w)) =
           ([EPost register_url (test_user (clock w)); EPrint line], inr None))
  \/ (exists e,
         http_post w register_url (test_user (clock w)) = inl e
         /\ is_Exception e = false
         /\ register_step w (test_user (clock w)) =
              ([EPost register_url (test_user (clock w))], inl e)).
Proof.
  destruct (http_post w register_url (test_user (clock w)))
    as [e | r] eqn:Hpost.
  - rewrite (register_step_raises w _ e Hpost).
    destruct (is_Exception e) eqn:Hexc.
    + right; left. eexists. reflexivity.
    + right; right. exists e.
      split; [reflexivity | split; [exact Hexc | reflexivity]].
  - destruct (Z.eq_dec (status_code r) 201) as [Hstatus | Hstatus].
    + destruct (json_result_cases r) as [(msg & Hjson) | (body & Hjson)].
      * right; left. eexists.
        exact (register_step_undecodable w _ r msg Hpost Hstatus Hjson).
      * destruct (getitem_cases body "token")
          as [(tok & Htok) | (e & Htok & Hexc)].
        -- left. exists tok. split.
           ++ destruct (getitem_ok_inv body "token" [] tok Htok)
                as (members & Hbody & Hlookup).
              subst body. exists r, members. repeat split; assumption.
           ++ exact (register_step_token w _ r body tok
                       Hpost Hstatus Hjson Htok).
        -- right; left. eexists.
           exact (register_step_no_token w _ r body e
                    Hpost Hstatus Hjson Htok Hexc).
    + right; left. eexists.
      exact (register_step_rejected w _ r Hpost Hstatus).
Qed.

(** Step 2 sends its request and then only prints; it returns unless the
    call raised past the handler. *)
Lemma bestbuy_step_cases (w : world) (auth_token : value) :
  (exists rest,
      http_requests rest = []
      /\ bestbuy_step w auth_token =
           (EPrint (nl ++ "2. Testing BestBuy API connection...")
            :: EGet bestbuy_url (auth_headers auth_token) :: rest,
            inr tt))
  \/ (exists e,
         http_get w bestbuy_url (auth_headers auth_token) = inl e
         /\ is_Exception e = false
         /\ bestbuy_step w auth_token =
              ([EPrint (nl ++ "2. Testing BestBuy API connection...");
                EGet bestbuy_url (auth_headers auth_token)],
               inl e)).
Proof.
  destruct (http_get w bestbuy_url (auth_headers auth_token))
    as [e | r] eqn:Hget.
  - rewrite (bestbuy_step_raises w auth_token e Hget).
    destruct (is_Exception e) eqn:Hexc.
    + left. eexists. split; [| reflexivity]. reflexivity.
    + right. exists e.
      split; [reflexivity | split; [exact Hexc | reflexivity]].
  - left. destruct (json_result_cases r) as [(msg & Hjson) | (result & Hjson)].
    + rewrite (bestbuy_step_undecodable w auth_token r msg Hget Hjson).
      eexists. split; [| reflexivity]. reflexivity.
    + rewrite (bestbuy_step_answered w auth_token r result Hget Hjson).
      rewrite (report_result_handled result).
      eexists. split; [| reflexivity].
      unfold http_requests, response_lines. cbn [app filter is_request].
      exact (report_result_no_request result).
Qed.

(** ** Properties of the probe *)

(** C1: when the registration POST returns status 201 with a JSON object
    whose [token] field is the string [token], the next request of the run
    is the GET to [{BASE_URL}/bestbuy/test] with the single header
    [Authorization: Bearer <token>], the token unchanged; the run's requests
    are exactly that POST and that GET. *)
Theorem C1_bearer_token_sent (w : world) (r : response)
        (members : list (string * value)) (token : string) :
  http_post w (BASE_URL ++ "/auth/register") (test_user (clock w)) = inr r ->
  status_code r = 201 ->
  json_result r = inr (VDict members) ->
  dict_lookup members "token" = Some (VStr token) ->
  (exists rest,
      fst (test_bestbuy_connection w) =
        (step1_trace w
         ++ [EPrint "✅ Test user created successfully";
             EPrint (nl ++ "2. Testing BestBuy API connection...");
             EGet (BASE_URL ++ "/bestbuy/test")
                  [("Authorization", ("Bearer " ++ token)%string)]]
         ++ rest)%list)
  /\ http_requests (fst (test_bestbuy_connection w)) =
       [EPost (BASE_URL ++ "/auth/register") (test_user (clock w));
        EGet (BASE_URL ++ "/bestbuy/test")
             [("Authorization", ("Bearer " ++ token)%string)]].
Proof.
  intros Hpost Hstatus Hjson Htoken.
  assert (Hreg : registers w (VStr token)).
  { exists r, members. repeat split; assumption. }
  rewrite (run_registers w (VStr token) Hreg). cbn [fst].
  destruct (bestbuy_step_requests w (VStr token)) as (rest & Hstep & Hrest).
  rewrite Hstep. split.
  - exists rest. reflexivity.
  - unfold http_requests, step1_trace. cbn [app filter is_request].
    unfold http_requests in Hrest. rewrite Hrest. reflexivity.
Qed.

(** C6: a transport exception (any [Exception]) raised by the registration
    call, or by the health-check call after a successful registration, is
    printed by the enclosing handler and the function returns: the trace
    ends with the error line, and no request follows the failed one. *)
Theorem C6_transport_exception_reported (w : world) (e : py_exn) :
  is_Exception e = true ->
  (http_post w register_url (test_user (clock w)) = inl e ->
   test_bestbuy_connection w =
     ((step1_trace w
       ++ [EPrint ("❌ Registration error: " ++ exn_str e)])%list, inr tt))
  /\ (forall auth_token,
        registers w auth_token ->
        http_get w bestbuy_url (auth_headers auth_token) = inl e ->
        test_bestbuy_connection w =
          ((step2_trace w auth_token
            ++ [EPrint ("❌ BestBuy test error: " ++ exn_str e)])%list,
           inr tt)).
Proof.
  intros Hexc. split.
  - intros Hpost.
    rewrite run_unfold, (register_step_raises w _ e Hpost), Hexc.
    reflexivity.
  - intros auth_token Hreg Hget.
    rewrite (run_registers w auth_token Hreg).
    rewrite (bestbuy_step_raises w auth_token e Hget), Hexc.
    reflexivity.
Qed.

(** C7: the generated e-mail address determines the whole-second
    timestamp it was built from, so two runs whose timestamps differ (in
    particular by more than one second) register different addresses. *)
Theorem C7_email_injective (t1 t2 : Z) :
  (test_email t1 = test_email t2 -> t1 = t2)
  /\ (1 < Z.abs (t2 - t1) ->
      test_email t1 <> test_email t2 /\ test_user t1 <> test_user t2).
Proof.
  assert (Hinj : test_email t1 = test_email t2 -> t1 = t2).
  { unfold test_email. intros H.
    apply StringFacts.append_inv_head in H.
    apply StringFacts.append_inv_tail in H.
    exact (StringFacts.str_int_inj t1 t2 H). }
  split; [exact Hinj |].
  intros Hfar. split.
  - intros H. apply Hinj in H. lia.
  - unfold test_user. intros H.
    assert (He : test_email t1 = test_email t2) by congruence.
    apply Hinj in He. lia.
Qed.

(** C8: whenever every exception raised by the two calls is an
    [Exception], the function returns normally on every path, and the
    process ends with status 0: no path sets an exit code. *)
Theorem C8_always_returns_normally (w : world) :
  raises_only_Exception w ->
  snd (test_bestbuy_connection w) = inr tt
  /\ snd (script_main w) = ExitZero.
Proof.
  intros [Hpost_exc Hget_exc].
  assert (Hret : snd (test_bestbuy_connection w) = inr tt).
  { rewrite run_unfold.
    destruct (http_post w register_url (test_user (clock w)))
      as [e | r] eqn:Hpost.
    - rewrite (register_step_raises w _ e Hpost), (Hpost_exc _ _ e Hpost).
      reflexivity.
    - destruct (Z.eq_dec (status_code r) 201) as [Hstatus | Hstatus].
      + destruct (json_result_cases r) as [(msg & Hjson) | (body & Hjson)].
        * rewrite (register_step_undecodable w _ r msg Hpost Hstatus Hjson).
          reflexivity.
        * destruct (getitem_cases body "token")
            as [(tok & Htok) | (e & Htok & Hexc)].
          -- rewrite (register_step_token w _ r body tok Hpost Hstatus Hjson Htok).
             pose proof (bestbuy_step_returns w tok
                           (fun e => Hget_exc _ _ e)) as Hstep.
             destruct (bestbuy_step w tok) as [tr2 r2]. exact Hstep.
          -- rewrite (register_step_no_token w _ r body e
                        Hpost Hstatus Hjson Htok Hexc).
             reflexivity.
      + rewrite (register_step_rejected w _ r Hpost Hstatus). reflexivity. }
  split; [exact Hret |].
  unfold script_main. destruct (test_bestbuy_connection w) as [tr [e | []]].
  - discriminate Hret.
  - reflexivity.
Qed.

(** C9: when the registration returns status 201 but its body is not valid
    JSON, or decodes to a value from which [token] cannot be read, the
    failure is caught by the registration handler: the run prints a
    "Registration error" line and returns, and the registration POST is its
    only request. *)
Theorem C9_unusable_201_body_handled (w : world) (r : response) :
  http_post w register_url (test_user (clock w)) = inr r ->
  status_code r = 201 ->
  (exists msg, json_result r = inl msg)
  \/ (exists body, json_result r = inr body /\ has_token body = false) ->
  (exists reason,
      test_bestbuy_connection w =
        ((step1_trace w
          ++ [EPrint ("❌ Registration error: " ++ reason)])%list, inr tt))
  /\ http_requests (fst (test_bestbuy_connection w)) =
       [EPost register_url (test_user (clock w))].
Proof.
  intros Hpost Hstatus Hbody.
  assert (Hrun : exists reason,
             test_bestbuy_connection w =
               ((step1_trace w
                 ++ [EPrint ("❌ Registration error: " ++ reason)])%list,
                inr tt)).
  { destruct Hbody as [(msg & Hjson) | (body & Hjson & Hno)].
    - exists msg.
      rewrite run_unfold,
        (register_step_undecodable w _ r msg Hpost Hstatus Hjson).
      reflexivity.
    - destruct (getitem_has_token body Hno) as (e & Hget & Hexc).
      exists (exn_str e).
      rewrite run_unfold,
        (register_step_no_token w _ r body e Hpost Hstatus Hjson Hget Hexc).
      reflexivity. }
  split; [exact Hrun |].
  destruct Hrun as (reason & Hrun). rewrite Hrun. reflexivity.
Qed.

(** X1: every run starts with the banner, the step-1 heading and the
    registration POST, and sends nothing else except, when the
    registration returned 201 with a readable [token], one GET to the
    health-check URL carrying that token: never a second POST, never a
    GET to another URL or without a registration. *)
Theorem X1_requests_post_then_get (w : world) :
  (exists rest, fst (test_bestbuy_connection w) = (step1_trace w ++ rest)%list)
  /\ (http_requests (fst (test_bestbuy_connection w)) =
        [EPost register_url (test_user (clock w))]
      \/ exists auth_token,
           registers w auth_token
           /\ http_requests (fst (test_bestbuy_connection w)) =
                [EPost register_url (test_user (clock w));
                 EGet bestbuy_url (auth_headers auth_token)]).
Proof.
  rewrite run_unfold.
  destruct (register_step_cases w)
    as [(tok & Hreg & Hstep) | [(line & Hstep) | (e & _ & _ & Hstep)]];
    rewrite Hstep.
  - destruct (bestbuy_step_cases w tok)
      as [(rest & Hrest & Hstep2) | (e & _ & _ & Hstep2)];
      rewrite Hstep2; cbn [fst]; split.
    + eexists. reflexivity.
    + right. exists tok. split; [exact Hreg |].
      unfold http_requests, step1_trace. cbn [firstn app filter is_request].
      unfold http_requests in Hrest. rewrite Hrest. reflexivity.
    + eexists. reflexivity.
    + right. exists tok. split; [exact Hreg | reflexivity].
  - split; [eexists; reflexivity | left; reflexivity].
  - split; [exists []; reflexivity | left; reflexivity].
Qed.

(** X2: the only exceptions that leave the function are those raised by
    one of the two HTTP calls that are not [Exception] instances (such as
    [KeyboardInterrupt]); no error of the script's own (a missing key, a
    wrong type, an undecodable body) ever escapes. *)
Theorem X2_only_non_exceptions_escape (w : world) (e : py_exn) :
  snd (test_bestbuy_connection w) = inl e ->
  is_Exception e = false
  /\ (http_post w register_url (test_user (clock w)) = inl e
      \/ exists auth_token,
           registers w auth_token
           /\ http_get w bestbuy_url (auth_headers auth_token) = inl e).
Proof.
  rewrite run_unfold.
  destruct (register_step_cases w)
    as [(tok & Hreg & Hstep) | [(line & Hstep) | (e' & Hpost & Hexc & Hstep)]];
    rewrite Hstep.
  - destruct (bestbuy_step_cases w tok)
      as [(rest & _ & Hstep2) | (e' & Hget & Hexc & Hstep2)];
      rewrite Hstep2; cbn [snd]; intros H; [discriminate H |].
    injection H as H. subst e'.
    split; [exact Hexc |]. right. exists tok. split; assumption.
  - cbn [snd]. discriminate.
  - cbn [snd]. intros H. injection H as H. subst e'.
    split; [exact Hexc | left; exact Hpost].
Qed.

(** X3: an exception that is not an [Exception] instance passes through
    both handlers unprinted.  Raised by the registration call, the run
    stops right after the POST and the process ends on the uncaught
    exception; raised by the health-check call, the run stops right after
    the GET. *)
Theorem X3_non_exception_propagates (w : world) (e : py_exn) :
  is_Exception e = false ->
  (http_post w register_url (test_user (clock w)) = inl e ->
   test_bestbuy_connection w = (step1_trace w, inl e)
   /\ script_main w = (step1_trace w, ExitUncaught e))
  /\ (forall auth_token,
        registers w auth_token ->
        http_get w bestbuy_url (auth_headers auth_token) = inl e ->
        test_bestbuy_connection w = (step2_trace w auth_token, inl e)
        /\ script_main w = (step2_trace w auth_token, ExitUncaught e)).
Proof.
  intros Hexc. split.
  - intros Hpost.
    assert (Hrun : test_bestbuy_connection w = (step1_trace w, inl e)).
    { rewrite run_unfold, (register_step_raises w _ e Hpost), Hexc.
      reflexivity. }
    split; [exact Hrun |]. unfold script_main. rewrite Hrun. reflexivity.
  - intros auth_token Hreg Hget.
    assert (Hrun : test_bestbuy_connection w
                   = (step2_trace w auth_token, inl e)).
    { rewrite (run_registers w auth_token Hreg).
      rewrite (bestbuy_step_raises w auth_token e Hget), Hexc.
      reflexivity. }
    split; [exact Hrun |]. unfold script_main. rewrite Hrun. reflexivity.
Qed.

(** X4: when the health-check response body is not valid JSON, the
    handler prints the decoder's message right after the request: neither
    the "Status Code" line nor the "Response" line is printed, whatever the
    status, because the body is decoded before them. *)
Theorem X4_undecodable_health_body (w : world) (auth_token : value)
        (r : response) (msg : string) :
  registers w auth_token ->
  answers w auth_token r ->
  json_result r = inl msg ->
  test_bestbuy_connection w =
    ((step2_trace w auth_token
      ++ [EPrint ("❌ BestBuy test error: " ++ msg)])%list, inr tt).
Proof.
  intros Hreg Hans Hjson.
  rewrite (run_registers w auth_token Hreg).
  rewrite (bestbuy_step_undecodable w auth_token r msg Hans Hjson).
  reflexivity.
Qed.

(** X5: when the health-check body decodes to something other than a
    JSON object (null, a boolean, a number, a string, an array), the
    status and the dump are printed, then [result.get] raises an
    [AttributeError] naming the value's type, which the handler prints;
    neither reporting branch runs. *)
Theorem X5_non_object_health_body (w : world) (auth_token : value)
        (r : response) (result : value) :
  registers w auth_token ->
  answers w auth_token r ->
  json_result r = inr result ->
  is_dict result = false ->
  test_bestbuy_connection w =
    ((step2_trace w auth_token
      ++ response_lines r result
      ++ [EPrint ("❌ BestBuy test error: '" ++ type_name result
                    ++ "' object has no attribute 'get'")])%list,
     inr tt).
Proof.
  intros Hreg Hans Hjson Hnot.
  rewrite (run_answered w auth_token r result Hreg Hans Hjson).
  destruct result as [| b | z | f | s | items | members];
    try discriminate Hnot; reflexivity.
Qed.

(** X9: a registration response with a status other than 201 is never
    decoded: the run is determined by the clock and the response's text
    alone, whatever its JSON content, its exact status, and whatever the
    health-check endpoint would have answered. *)
Theorem X9_rejected_body_not_decoded (w w' : world) (r r' : response) :
  clock w = clock w' ->
  http_post w register_url (test_user (clock w)) = inr r ->
  http_post w' register_url (test_user (clock w')) = inr r' ->
  status_code r <> 201 ->
  status_code r' <> 201 ->
  text r = text r' ->
  test_bestbuy_connection w = test_bestbuy_connection w'.
Proof.
  intros Hclock Hpost Hpost' Hstatus Hstatus' Htext.
  rewrite (run_unfold w), (run_unfold w').
  rewrite (register_step_rejected w _ r Hpost Hstatus).
  rewrite (register_step_rejected w' _ r' Hpost' Hstatus').
  unfold step1_trace, rejected_line. rewrite Hclock, Htext. reflexivity.
Qed.

(** X10: the run consults the outside world at three points only: the
    clock, the POST of the test user to the registration URL, and the GET
    of the health-check URL with the bearer header.  Two worlds that agree
    there give the same run. *)
Theorem X10_run_depends_on_three_points (w w' : world) :
  clock w = clock w' ->
  http_post w register_url (test_user (clock w)) =
    http_post w' register_url (test_user (clock w)) ->
  (forall auth_token,
      http_get w bestbuy_url (auth_headers auth_token) =
        http_get w' bestbuy_url (auth_headers auth_token)) ->
  test_bestbuy_connection w = test_bestbuy_connection w'.
Proof.
  intros Hclock Hpost Hget.
  assert (Hstep1 : register_step w (test_user (clock w))
                   = register_step w' (test_user (clock w'))).
  { rewrite <- Hclock. unfold register_step, requests_post.
    rewrite Hpost. reflexivity. }
  assert (Hstep2 : forall tok, bestbuy_step w tok = bestbuy_step w' tok).
  { intros tok. unfold bestbuy_step, requests_get.
    rewrite (Hget tok). reflexivity. }
  rewrite (run_unfold w), (run_unfold w'), Hstep1.
  unfold step1_trace. rewrite Hclock.
  destruct (register_step w' (test_user (clock w'))) as [tr1 [e | [tok |]]];
    try reflexivity.
  rewrite (Hstep2 tok). reflexivity.
Qed.


(** C3: the HTTP status of the health-check response selects nothing.
    Replacing it by any other status leaves the completion and every event
    of the run unchanged except the "Status Code" line itself; and whatever
    the status, what follows the dump of a JSON-object body is decided by
    the body: the PASSED line when its [success] field is truthy, and
    otherwise the failure branch, whose first act is to print the FAILED
    line (or, when that line cannot be encoded, to raise into the handler,
    which prints the codec's message). *)
Theorem C3_status_selects_no_branch (w : world) (status : Z) :
  (snd (test_bestbuy_connection (with_get_status status w)) =
     snd (test_bestbuy_connection w)
   /\ (fst (test_bestbuy_connection (with_get_status status w)) =
         fst (test_bestbuy_connection w)
       \/ exists pre post status0,
            fst (test_bestbuy_connection w) =
              (pre ++ EPrint ("Status Code: " ++ str_int status0) :: post)%list
            /\ fst (test_bestbuy_connection (with_get_status status w)) =
                 (pre ++ EPrint ("Status Code: " ++ str_int status) :: post)%list))
  /\ (forall auth_token r members,
        registers w auth_token ->
        answers w auth_token r ->
        json_result r = inr (VDict members) ->
        exists rest,
          test_bestbuy_connection w =
            ((step2_trace w auth_token
              ++ response_lines r (VDict members)
              ++ EPrint (if truthy (field members "success" VNone)
                         then nl ++ "✅ BestBuy Connection Test PASSED!"
                         else if encodable (failed_line members)
                              then failed_line members
                              else "❌ BestBuy test error: "
                                   ++ encode_error_str (failed_line members))
                 :: rest)%list,
             inr tt)).
Proof.
  split.
  - rewrite !run_unfold.
    change (register_step (with_get_status status w)
              (test_user (clock (with_get_status status w))))
      with (register_step w (test_user (clock w))).
    change (step1_trace (with_get_status status w)) with (step1_trace w).
    destruct (register_step w (test_user (clock w))) as [tr1 [e | [tok |]]];
      try (split; [reflexivity | left; reflexivity]).
    destruct (http_get w bestbuy_url (auth_headers tok)) as [e | r] eqn:Hget.
    + assert (Hget' : http_get (with_get_status status w) bestbuy_url
                               (auth_headers tok) = inl e)
        by (unfold with_get_status; cbn [http_get]; rewrite Hget; reflexivity).
      rewrite (bestbuy_step_raises _ tok e Hget),
        (bestbuy_step_raises _ tok e Hget').
      destruct (is_Exception e); split; try reflexivity; left; reflexivity.
    + assert (Hget' : answers (with_get_status status w) tok
                              (mk_response status (text r) (json_result r)
                                           (json_error_encodable r)))
        by (unfold answers, with_get_status; cbn [http_get];
            rewrite Hget; reflexivity).
      destruct (json_result_cases r) as [(msg & Hjson) | (result & Hjson)].
      * rewrite (bestbuy_step_undecodable w tok r msg Hget Hjson),
          (bestbuy_step_undecodable _ tok _ msg Hget' Hjson).
        split; [reflexivity | left; reflexivity].
      * rewrite (bestbuy_step_answered w tok r result Hget Hjson),
          (bestbuy_step_answered _ tok _ result Hget' Hjson).
        split; [reflexivity |]. right.
        exists (firstn 2 (step1_trace w) ++ tr1
                ++ [EPrint (nl ++ "2. Testing BestBuy API connection...");
                    EGet bestbuy_url (auth_headers tok)])%list.
        exists (EPrint ("Response: " ++ json_dumps 2 result)
                :: fst (try_except (report_result result) bestbuy_handler)).
        exists (status_code r).
        cbn [fst response_lines status_code].
        rewrite <- !app_assoc. split; reflexivity.
  - intros auth_token r members Hreg Hans Hjson.
    rewrite (run_answered w auth_token r (VDict members) Hreg Hans Hjson).
    rewrite (report_result_handled (VDict members)).
    rewrite report_result_dict.
    destruct (truthy (field members "success" VNone)).
    + unfold report_passed. rewrite bind_print by reflexivity.
      rewrite try_except_cons. eexists. reflexivity.
    + destruct (encodable (failed_line members)) eqn:Hfailed.
      * rewrite report_failed_start, bind_print by exact Hfailed.
        rewrite try_except_cons. eexists. reflexivity.
      * rewrite (report_failed_unprintable members Hfailed).
        rewrite try_except_raise. cbv iota.
        change (is_Exception (unicode_error (failed_line members))) with true.
        cbv iota. rewrite bestbuy_handler_run. eexists. reflexivity.
Qed.


(** C5 (amended): a body whose [success] is [true] and whose [platform]
    and [apiKey] values standard output can encode is reported by the
    PASSED line, the platform line and the API-key line (with the defaults
    [Unknown] and [Hidden] for absent fields), followed by the "Account
    Data" line with [data] pretty-printed at indent 4 exactly when the
    [data] field is present with a truthy value; then the function
    returns. *)
Theorem C5_success_body_reported (w : world) (auth_token : value)
        (r : response) (members : list (string * value)) :
  registers w auth_token ->
  answers w auth_token r ->
  json_result r = inr (VDict members) ->
  dict_lookup members "success" = Some (VBool true) ->
  encodable (py_str (field members "platform" (VStr "Unknown"))) = true ->
  encodable (py_str (field members "apiKey" (VStr "Hidden"))) = true ->
  test_bestbuy_connection w =
    ((step2_trace w auth_token
      ++ response_lines r (VDict members)
      ++ [EPrint (nl ++ "✅ BestBuy Connection Test PASSED!");
          EPrint ("   Platform: "
                    ++ py_str (field members "platform" (VStr "Unknown")));
          EPrint ("   API Key: "
                    ++ py_str (field members "apiKey" (VStr "Hidden")))]
      ++ match dict_lookup members "data" with
         | Some data =>
             if truthy data
             then [EPrint ("   Account Data: " ++ json_dumps 4 data)]
             else []
         | None => []
         end)%list,
     inr tt).
Proof.
  intros Hreg Hans Hjson Hsuccess Hplatform Hkey.
  assert (Hfield : field members "success" VNone = VBool true)
    by (unfold field; rewrite Hsuccess; reflexivity).
  rewrite (run_answered w auth_token r (VDict members) Hreg Hans Hjson).
  rewrite report_result_dict, Hfield. cbn [truthy].
  rewrite (report_passed_dict members Hplatform Hkey).
  unfold platform_line, api_key_line. unfold field at 3 4.
  destruct (dict_lookup members "data") as [data |]; [| reflexivity].
  destruct (truthy data); reflexivity.
Qed.

(** C10 (amended): a JSON-object body whose [success] field is absent or
    falsy is handled by the failure branch.  When standard output can
    encode the [message], the FAILED line carries it, or [None] when there
    is no [message] field, and the function returns.  A body without
    [success] is reported exactly as the same body with [success: false]
    added. *)
Theorem C10_absent_success_is_failure (w : world) (auth_token : value)
        (r : response) (members : list (string * value)) :
  registers w auth_token ->
  answers w auth_token r ->
  json_result r = inr (VDict members) ->
  truthy (field members "success" VNone) = false ->
  test_bestbuy_connection w =
    ((step2_trace w auth_token
      ++ response_lines r (VDict members)
      ++ fst (try_except (report_failed (VDict members)) bestbuy_handler))%list,
     inr tt)
  /\ (encodable (py_str (field members "message" VNone)) = true ->
      exists rest,
        test_bestbuy_connection w =
          ((step2_trace w auth_token
            ++ response_lines r (VDict members)
            ++ EPrint (nl ++ "❌ BestBuy Connection Test FAILED: "
                          ++ match dict_lookup members "message" with
                             | Some message => py_str message
                             | None => "None"
                             end)
               :: rest)%list,
           inr tt))
  /\ (dict_lookup members "success" = None ->
      report_result (VDict members) =
        report_result (VDict (("success", VBool false) :: members))).
Proof.
  intros Hreg Hans Hjson Hfalsy.
  assert (Hrun : test_bestbuy_connection w =
                 ((step2_trace w auth_token
                   ++ response_lines r (VDict members)
                   ++ fst (try_except (report_failed (VDict members))
                                      bestbuy_handler))%list,
                  inr tt)).
  { rewrite (run_answered w auth_token r (VDict members) Hreg Hans Hjson).
    rewrite (report_result_handled (VDict members)).
    rewrite report_result_dict, Hfalsy. reflexivity. }
  split; [exact Hrun | split].
  - intros Hmessage.
    assert (Hfailed : encodable (failed_line members) = true)
      by exact Hmessage.
    rewrite Hrun, report_failed_start, bind_print by exact Hfailed.
    rewrite try_except_cons.
    unfold failed_line, field.
    destruct (dict_lookup members "message"); eexists; reflexivity.
  - intros Habsent.
    rewrite !report_result_dict.
    assert (Hnew : field (("success", VBool false) :: members) "success" VNone
                   = VBool false) by reflexivity.
    rewrite Hfalsy, Hnew. cbn [truthy].
    rewrite !report_failed_start. reflexivity.
Qed.

(** X6: in the failure branch, when the FAILED line can be encoded, a
    [troubleshooting] value that is truthy but not a mapping (a non-empty
    string or array, a non-zero number, [true]) gets the FAILED line and
    the suggestions heading, and then [.items()] raises an
    [AttributeError] that the handler prints. *)
Theorem X6_troubleshooting_not_a_mapping (w : world) (auth_token : value)
        (r : response) (members : list (string * value)) (hint : value) :
  registers w auth_token ->
  answers w auth_token r ->
  json_result r = inr (VDict members) ->
  truthy (field members "success" VNone) = false ->
  encodable (py_str (field members "message" VNone)) = true ->
  dict_lookup members "troubleshooting" = Some hint ->
  truthy hint = true ->
  is_dict hint = false ->
  test_bestbuy_connection w =
    ((step2_trace w auth_token
      ++ response_lines r (VDict members)
      ++ [EPrint (nl ++ "❌ BestBuy Connection Test FAILED: "
                     ++ py_str (field members "message" VNone));
          EPrint (nl ++ "💡 Troubleshooting suggestions:");
          EPrint ("❌ BestBuy test error: '" ++ type_name hint
                    ++ "' object has no attribute 'items'")])%list,
     inr tt).
Proof.
  intros Hreg Hans Hjson Hfalsy Hmessage Hhint Htruthy Hnot.
  assert (Hfailed : encodable (failed_line members) = true) by exact Hmessage.
  assert (Hfield : field members "troubleshooting" VNone = hint)
    by (unfold field; rewrite Hhint; reflexivity).
  rewrite (run_answered w auth_token r (VDict members) Hreg Hans Hjson).
  rewrite report_result_dict, Hfalsy.
  rewrite (report_failed_not_mapping members hint Hfailed Hfield Htruthy Hnot).
  rewrite try_except_fail.
  change (is_Exception (no_attribute hint method_items)) with true.
  cbv iota. rewrite bestbuy_handler_run.
  destruct hint; try discriminate Hnot; reflexivity.
Qed.

(** X7: in the failure branch, when the FAILED line can be encoded, a
    [troubleshooting] field that is absent or falsy (null, [false], zero,
    an empty string, array or mapping) is skipped silently: the run ends
    with the FAILED line. *)
Theorem X7_falsy_troubleshooting_skipped (w : world) (auth_token : value)
        (r : response) (members : list (string * value)) :
  registers w auth_token ->
  answers w auth_token r ->
  json_result r = inr (VDict members) ->
  truthy (field members "success" VNone) = false ->
  encodable (py_str (field members "message" VNone)) = true ->
  truthy (field members "troubleshooting" VNone) = false ->
  test_bestbuy_connection w =
    ((step2_trace w auth_token
      ++ response_lines r (VDict members)
      ++ [EPrint (nl ++ "❌ BestBuy Connection Test FAILED: "
                     ++ py_str (field members "message" VNone))])%list,
     inr tt).
Proof.
  intros Hreg Hans Hjson Hfalsy Hmessage Hskip.
  assert (Hfailed : encodable (failed_line members) = true) by exact Hmessage.
  rewrite (run_answered w auth_token r (VDict members) Hreg Hans Hjson).
  rewrite report_result_dict, Hfalsy.
  rewrite (report_failed_skipped members Hfailed Hskip).
  reflexivity.
Qed.

(** X8: the success branch is chosen by truthiness, not by [true]: any
    truthy [success] (a non-zero number, a non-empty string such as
    ["false"], a non-empty array or object) prints the PASSED report, as
    long as the platform and API-key values can be encoded, and returns. *)
Theorem X8_truthy_success_passes (w : world) (auth_token : value)
        (r : response) (members : list (string * value)) :
  registers w auth_token ->
  answers w auth_token r ->
  json_result r = inr (VDict members) ->
  truthy (field members "success" VNone) = true ->
  encodable (py_str (field members "platform" (VStr "Unknown"))) = true ->
  encodable (py_str (field members "apiKey" (VStr "Hidden"))) = true ->
  test_bestbuy_connection w =
    ((step2_trace w auth_token
      ++ response_lines r (VDict members)
      ++ [EPrint (nl ++ "✅ BestBuy Connection Test PASSED!");
          EPrint ("   Platform: "
                    ++ py_str (field members "platform" (VStr "Unknown")));
          EPrint ("   API Key: "
                    ++ py_str (field members "apiKey" (VStr "Hidden")))]
      ++ (if truthy (field members "data" VNone)
          then [EPrint ("   Account Data: "
                          ++ json_dumps 4 (field members "data" VNone))]
          else []))%list,
     inr tt).
Proof.
  intros Hreg Hans Hjson Htruthy Hplatform Hkey.
  rewrite (run_answered w auth_token r (VDict members) Hreg Hans Hjson).
  rewrite report_result_dict, Htruthy.
  rewrite (report_passed_dict members Hplatform Hkey).
  destruct (truthy (field members "data" VNone)); reflexivity.
Qed.

End ProbeFacts.
(** ** Runs on concrete backends *)

Section Runs.

Local Existing Instance plain_runtime.

Lemma token_abc_registers (now : Z) (chk : py_exn + response) :
  registers (fixed_world now token_abc chk) (VStr "abc").
Proof.
  exists (ok_response 201 (VDict [("token", VStr "abc")])),
         [("token", VStr "abc")].
  repeat split.
Qed.

(** A [troubleshooting] value that is truthy but not a mapping makes
    [.items()] raise inside the failure branch; the handler reports it. *)
Example run_troubleshooting_string :
  test_bestbuy_connection
    (answering_world 200 [("success", VBool false);
                          ("troubleshooting", VStr "restart")])
  = ((step2_trace (answering_world 200 []) (VStr "abc")
      ++ response_lines (ok_response 200 VNone)
           (VDict [("success", VBool false);
                   ("troubleshooting", VStr "restart")])
      ++ [EPrint (nl ++ "❌ BestBuy Connection Test FAILED: None");
          EPrint (nl ++ "💡 Troubleshooting suggestions:");
          EPrint "❌ BestBuy test error: 'str' object has no attribute 'items'"])%list,
     inr tt).
Proof. reflexivity. Qed.

(** An interrupt during the registration call is not an [Exception]: it
    leaves the function. *)
Example run_interrupted :
  script_main (fixed_world 0 (inl interrupt) token_abc)
  = (step1_trace (fixed_world 0 token_abc token_abc),
     ExitUncaught interrupt).
Proof. reflexivity. Qed.

Lemma C1_witness :
  http_requests (fst (test_bestbuy_connection (answering_world 200 passed_members)))
  = [EPost (BASE_URL ++ "/auth/register") (test_user 1700000000);
     EGet (BASE_URL ++ "/bestbuy/test") [("Authorization", "Bearer abc")]].
Proof.
  exact (proj2 (C1_bearer_token_sent
                  (answering_world 200 passed_members)
                  (ok_response 201 (VDict [("token", VStr "abc")]))
                  [("token", VStr "abc")] "abc"
                  eq_refl eq_refl eq_refl eq_refl)).
Defined.



Lemma C3_witness :
  exists rest,
    test_bestbuy_connection (answering_world 500 passed_members)
    = ((step2_trace (answering_world 500 passed_members) (VStr "abc")
        ++ [EPrint "Status Code: 500";
            EPrint ("Response: " ++ json_dumps 2 (VDict passed_members));
            EPrint (nl ++ "✅ BestBuy Connection Test PASSED!")]
        ++ rest)%list,
       inr tt).
Proof.
  destruct (proj2 (C3_status_selects_no_branch
                     (answering_world 500 passed_members) 200)
                  (VStr "abc") (ok_response 500 (VDict passed_members))
                  passed_members
                  (token_abc_registers _ _) eq_refl eq_refl)
    as [rest Hrun].
  exists rest. exact Hrun.
Defined.



Lemma C5_witness :
  test_bestbuy_connection (answering_world 200 passed_members)
  = ((step2_trace (answering_world 200 passed_members) (VStr "abc")
      ++ [EPrint "Status Code: 200";
          EPrint ("Response: " ++ json_dumps 2 (VDict passed_members));
          EPrint (nl ++ "✅ BestBuy Connection Test PASSED!");
          EPrint "   Platform: BestBuy";
          EPrint "   API Key: hidden";
          EPrint ("   Account Data: " ++ json_dumps 4 (VDict [("x", VInt 1)]))])%list,
     inr tt).
Proof.
  exact (C5_success_body_reported
           (answering_world 200 passed_members) (VStr "abc")
           (ok_response 200 (VDict passed_members)) passed_members
           (token_abc_registers _ _) eq_refl eq_refl eq_refl
           eq_refl eq_refl).
Defined.

(** A [platform] value that holds a lone surrogate stops the success
    report after the PASSED line; the handler prints the codec's
    message. *)
Example run_unprintable_platform :
  test_bestbuy_connection (answering_world 200 surrogate_platform_members)
  = ((step2_trace (answering_world 200 surrogate_platform_members)
                  (VStr "abc")
      ++ response_lines (ok_response 200 VNone)
                        (VDict surrogate_platform_members)
      ++ [EPrint (nl ++ "✅ BestBuy Connection Test PASSED!");
          EPrint ("❌ BestBuy test error: "
                    ++ encode_error_str
                         (platform_line surrogate_platform_members))])%list,
     inr tt).
Proof. reflexivity. Qed.

(** C5 as stated fails on a body whose [data] field is present but
    empty: the field is there, and no "Account Data" line is printed. *)
Lemma C5_counterexample :
  dict_lookup empty_data_members "success" = Some (VBool true)
  /\ dict_lookup empty_data_members "data" = Some (VDict [])
  /\ test_bestbuy_connection (answering_world 200 empty_data_members)
     = ((step2_trace (answering_world 200 empty_data_members) (VStr "abc")
         ++ [EPrint "Status Code: 200";
             EPrint ("Response: " ++ json_dumps 2 (VDict empty_data_members));
             EPrint (nl ++ "✅ BestBuy Connection Test PASSED!");
             EPrint "   Platform: BestBuy";
             EPrint "   API Key: hidden"])%list,
        inr tt)
  /\ (forall data,
        ~ In (EPrint ("   Account Data: " ++ json_dumps 4 data))
             (fst (test_bestbuy_connection
                     (answering_world 200 empty_data_members)))).
Proof.
  repeat split.
  intros data HIn. cbn in HIn.
  repeat (destruct HIn as [HIn | HIn]; [discriminate HIn |]).
  exact HIn.
Qed.

Lemma C6_witness :
  test_bestbuy_connection post_timeout_world
  = ((step1_trace post_timeout_world
      ++ [EPrint "❌ Registration error: Read timed out."])%list, inr tt)
  /\ test_bestbuy_connection get_timeout_world
     = ((step2_trace get_timeout_world (VStr "abc")
         ++ [EPrint "❌ BestBuy test error: Read timed out."])%list, inr tt).
Proof.
  split.
  - exact (proj1 (C6_transport_exception_reported
                    post_timeout_world timeout_error eq_refl)
                 eq_refl).
  - exact (proj2 (C6_transport_exception_reported
                    get_timeout_world timeout_error eq_refl)
                 (VStr "abc") (token_abc_registers _ _) eq_refl).
Defined.

Lemma C7_witness :
  1 < Z.abs (1700000002 - 1700000000)
  /\ test_email 1700000000 <> test_email 1700000002.
Proof.
  split; [reflexivity |].
  exact (proj1 (proj2 (C7_email_injective 1700000000 1700000002) eq_refl)).
Defined.

Lemma C8_witness :
  snd (test_bestbuy_connection post_timeout_world) = inr tt
  /\ snd (script_main post_timeout_world) = ExitZero.
Proof.
  apply (C8_always_returns_normally post_timeout_world).
  split; intros ? ? e He; simpl in He; injection He as He; subst e;
    reflexivity.
Defined.

Lemma C9_witness :
  has_token (VDict [("user", VStr "u1")]) = false
  /\ http_requests (fst (test_bestbuy_connection tokenless_world))
     = [EPost register_url (test_user 1700000000)].
Proof.
  split; [reflexivity |].
  refine (proj2 (C9_unusable_201_body_handled tokenless_world tokenless
                   eq_refl eq_refl _)).
  right. exists (VDict [("user", VStr "u1")]). split; reflexivity.
Defined.

Lemma C10_witness :
  exists rest,
    test_bestbuy_connection (answering_world 401 no_success_members)
    = ((step2_trace (answering_world 401 no_success_members) (VStr "abc")
        ++ response_lines (ok_response 401 VNone) (VDict no_success_members)
        ++ EPrint (nl ++ "❌ BestBuy Connection Test FAILED: None") :: rest)%list,
       inr tt).
Proof.
  exact (proj1 (proj2 (C10_absent_success_is_failure
                         (answering_world 401 no_success_members) (VStr "abc")
                         (ok_response 401 (VDict no_success_members))
                         no_success_members
                         (token_abc_registers _ _) eq_refl eq_refl eq_refl))
               eq_refl).
Defined.

(** C10 as stated fails on a body without [success] whose [message]
    holds a lone surrogate: the failure branch is taken, but the FAILED
    line is not printed; the handler's error line is. *)
Lemma C10_counterexample :
  dict_lookup surrogate_only_message_members "success" = None
  /\ test_bestbuy_connection
       (answering_world 200 surrogate_only_message_members)
     = ((step2_trace (answering_world 200 surrogate_only_message_members)
                     (VStr "abc")
         ++ response_lines (ok_response 200 VNone)
                           (VDict surrogate_only_message_members)
         ++ [EPrint ("❌ BestBuy test error: "
                       ++ encode_error_str
                            (failed_line surrogate_only_message_members))])%list,
        inr tt)
  /\ ~ In (EPrint (failed_line surrogate_only_message_members))
          (fst (test_bestbuy_connection
                  (answering_world 200 surrogate_only_message_members))).
Proof.
  repeat split.
  intros HIn. cbn in HIn.
  repeat (destruct HIn as [HIn | HIn]; [discriminate HIn |]).
  exact HIn.
Qed.

Lemma X2_witness :
  is_Exception interrupt = false
  /\ (http_post (fixed_world 1700000000 (inl interrupt) token_abc)
                register_url (test_user 1700000000) = inl interrupt
      \/ exists auth_token,
           registers (fixed_world 1700000000 (inl interrupt) token_abc)
                     auth_token
           /\ http_get (fixed_world 1700000000 (inl interrupt) token_abc)
                       bestbuy_url (auth_headers auth_token) = inl interrupt).
Proof.
  exact (X2_only_non_exceptions_escape
           (fixed_world 1700000000 (inl interrupt) token_abc) interrupt
           eq_refl).
Defined.

Lemma X3_witness :
  script_main (fixed_world 1700000000 (inl interrupt) token_abc)
  = (step1_trace (fixed_world 1700000000 (inl interrupt) token_abc),
     ExitUncaught interrupt)
  /\ script_main (fixed_world 1700000000 token_abc (inl interrupt))
     = (step2_trace (fixed_world 1700000000 token_abc (inl interrupt))
                    (VStr "abc"),
        ExitUncaught interrupt).
Proof.
  split.
  - exact (proj2 (proj1 (X3_non_exception_propagates
                           (fixed_world 1700000000 (inl interrupt) token_abc)
                           interrupt eq_refl)
                        eq_refl)).
  - exact (proj2 (proj2 (X3_non_exception_propagates
                           (fixed_world 1700000000 token_abc (inl interrupt))
                           interrupt eq_refl)
                        (VStr "abc") (token_abc_registers _ _) eq_refl)).
Defined.

Lemma X4_witness :
  test_bestbuy_connection (fixed_world 1700000000 token_abc (inr bad_gateway))
  = ((step2_trace (fixed_world 1700000000 token_abc (inr bad_gateway))
                  (VStr "abc")
      ++ [EPrint "❌ BestBuy test error: Expecting value: line 1 column 1 (char 0)"])%list,
     inr tt).
Proof.
  exact (X4_undecodable_health_body
           (fixed_world 1700000000 token_abc (inr bad_gateway)) (VStr "abc")
           bad_gateway "Expecting value: line 1 column 1 (char 0)"
           (token_abc_registers _ _) eq_refl eq_refl).
Defined.

Lemma X5_witness :
  test_bestbuy_connection
    (fixed_world 1700000000 token_abc (inr (ok_response 200 (VList []))))
  = ((step2_trace
        (fixed_world 1700000000 token_abc (inr (ok_response 200 (VList []))))
        (VStr "abc")
      ++ [EPrint "Status Code: 200";
          EPrint "Response: []";
          EPrint "❌ BestBuy test error: 'list' object has no attribute 'get'"])%list,
     inr tt).
Proof.
  exact (X5_non_object_health_body
           (fixed_world 1700000000 token_abc (inr (ok_response 200 (VList []))))
           (VStr "abc") (ok_response 200 (VList [])) (VList [])
           (token_abc_registers _ _) eq_refl eq_refl eq_refl).
Defined.

Lemma X6_witness :
  test_bestbuy_connection (answering_world 200 string_hint_members)
  = ((step2_trace (answering_world 200 string_hint_members) (VStr "abc")
      ++ response_lines (ok_response 200 VNone) (VDict string_hint_members)
      ++ [EPrint (nl ++ "❌ BestBuy Connection Test FAILED: None");
          EPrint (nl ++ "💡 Troubleshooting suggestions:");
          EPrint "❌ BestBuy test error: 'str' object has no attribute 'items'"])%list,
     inr tt).
Proof.
  exact (X6_troubleshooting_not_a_mapping
           (answering_world 200 string_hint_members) (VStr "abc")
           (ok_response 200 (VDict string_hint_members)) string_hint_members
           (VStr "restart")
           (token_abc_registers _ _) eq_refl eq_refl eq_refl eq_refl
           eq_refl eq_refl eq_refl).
Defined.

Lemma X7_witness :
  test_bestbuy_connection (answering_world 200 empty_hint_members)
  = ((step2_trace (answering_world 200 empty_hint_members) (VStr "abc")
      ++ response_lines (ok_response 200 VNone) (VDict empty_hint_members)
      ++ [EPrint (nl ++ "❌ BestBuy Connection Test FAILED: bad key")])%list,
     inr tt).
Proof.
  exact (X7_falsy_troubleshooting_skipped
           (answering_world 200 empty_hint_members) (VStr "abc")
           (ok_response 200 (VDict empty_hint_members)) empty_hint_members
           (token_abc_registers _ _) eq_refl eq_refl eq_refl eq_refl
           eq_refl).
Defined.

Lemma X8_witness :
  test_bestbuy_connection (answering_world 200 quoted_false_members)
  = ((step2_trace (answering_world 200 quoted_false_members) (VStr "abc")
      ++ response_lines (ok_response 200 VNone) (VDict quoted_false_members)
      ++ [EPrint (nl ++ "✅ BestBuy Connection Test PASSED!");
          EPrint "   Platform: Unknown";
          EPrint "   API Key: Hidden"])%list,
     inr tt).
Proof.
  exact (X8_truthy_success_passes
           (answering_world 200 quoted_false_members) (VStr "abc")
           (ok_response 200 (VDict quoted_false_members)) quoted_false_members
           (token_abc_registers _ _) eq_refl eq_refl eq_refl
           eq_refl eq_refl).
Defined.

Lemma X9_witness :
  test_bestbuy_connection refusing_world
  = test_bestbuy_connection
      (fixed_world 1700000000
                   (inr (mk_response 200 "email already registered"
                                     (inr (VDict [("token", VStr "abc")])) I))
                   (inl timeout_error)).
Proof.
  apply (X9_rejected_body_not_decoded
           refusing_world
           (fixed_world 1700000000
                        (inr (mk_response 200 "email already registered"
                                          (inr (VDict [("token", VStr "abc")])) I))
                        (inl timeout_error))
           refused
           (mk_response 200 "email already registered"
                        (inr (VDict [("token", VStr "abc")])) I));
    try reflexivity; simpl; lia.
Defined.

(** A backend that fails every request except the two the script makes. *)
Lemma X10_witness :
  test_bestbuy_connection
    (mk_world 1700000000
              (fun url _ =>
                 if (url =? register_url)%string then token_abc
                 else inl timeout_error)
              (fun url _ =>
                 if (url =? bestbuy_url)%string
                 then inr (ok_response 200 (VDict passed_members))
                 else inl timeout_error))
  = test_bestbuy_connection (answering_world 200 passed_members).
Proof.
  apply (X10_run_depends_on_three_points
           (mk_world 1700000000
                     (fun url _ =>
                        if (url =? register_url)%string then token_abc
                        else inl timeout_error)
                     (fun url _ =>
                        if (url =? bestbuy_url)%string
                        then inr (ok_response 200 (VDict passed_members))
                        else inl timeout_error))
           (answering_world 200 passed_members)).
  - reflexivity.
  - reflexivity.
  - intros auth_token. reflexivity.
Defined.

End Runs.
